(** * News-Bias: the scraper of [news_bias.py], embedded and verified

    The development follows the source file top-down:

    - Python values: binary64 floats (the Standard Library's [SpecFloat]),
      [int / int] true division, the string built-ins the scraper calls;
    - [get_agreeance_text], the threshold ladder;
    - [build_data], the page and row loops with their bare [except:]
      clauses, over an explicit store of the function's local variables;
    - [build_dataframe], over a small model of the pandas calls it makes.

    Definitions come first; the facts proved about them follow. *)

From Stdlib Require Import ZArith List String Ascii Bool Lia.
From Stdlib Require Import Floats.SpecFloat.
Import ListNotations.

Local Open Scope string_scope.
Local Open Scope Z_scope.

(* ===================================================================== *)
(** * Python floats *)
(* ===================================================================== *)

(** A Python [float] is an IEEE 754 binary64 value: 53 bits of mantissa,
    infinities at exponent 1024. *)
Module PyFloat.

Definition prec : Z := 53.
Definition emax : Z := 1024.

Definition float := spec_float.

(** Comparison operators.  As in Python, every ordered comparison that
    involves a NaN is false. *)
Definition flt (x y : float) : bool := SFltb x y.
Definition fle (x y : float) : bool := SFleb x y.
Definition feq (x y : float) : bool := SFeqb x y.
Definition fgt (x y : float) : bool := SFltb y x.

(** An integer as a floating-point operand, before any rounding. *)
Definition of_int (z : Z) : float :=
  match z with
  | Z0 => S754_zero false
  | Zpos p => S754_finite false p 0
  | Zneg p => S754_finite true p 0
  end.

(** The binary64 value nearest to [a / b] (ties to even). *)
Definition nearest_quotient (a b : Z) : float :=
  SFdiv prec emax (of_int a) (of_int b).

(** The numeric literals of [get_agreeance_text].  The integer literals
    3, 2, 1 and 0 compare with a float by value, that is as 3.0, 2.0,
    1.0 and 0.0. *)
Definition f3    : float := S754_finite false 6755399441055744 (-51).
Definition f2    : float := S754_finite false 4503599627370496 (-51).
Definition f1_5  : float := S754_finite false 6755399441055744 (-52).
Definition f1    : float := S754_finite false 4503599627370496 (-52).
Definition f0_67 : float := S754_finite false 6034823500676465 (-53).
Definition f0_5  : float := S754_finite false 4503599627370496 (-53).
Definition f0_33 : float := S754_finite false 5944751508129055 (-54).
Definition f0    : float := S754_zero false.

(** 0.3333333333333333, the float Python prints for [3 / 9]. *)
Definition f_third : float := S754_finite false 6004799503160661 (-54).

Definition is_nan (x : float) : bool :=
  match x with S754_nan => true | _ => false end.

Definition is_inf (x : float) : bool :=
  match x with S754_infinity _ => true | _ => false end.

Definition is_finite (x : float) : bool :=
  match x with
  | S754_zero _ | S754_finite _ _ _ => true
  | _ => false
  end.

(** Position of a non-NaN float in the order [SFcompare] decides: sign
    class first, then exponent, then mantissa (both mirrored for the
    negative floats). *)
Definition key (x : float) : option (Z * Z * Z) :=
  match x with
  | S754_nan => None
  | S754_infinity true => Some (-2, 0, 0)
  | S754_finite true m e => Some (-1, - e, Zneg m)
  | S754_zero _ => Some (0, 0, 0)
  | S754_finite false m e => Some (1, e, Zpos m)
  | S754_infinity false => Some (2, 0, 0)
  end.

Definition lex3 (a b : Z * Z * Z) : comparison :=
  let '(a1, a2, a3) := a in
  let '(b1, b2, b3) := b in
  match a1 ?= b1 with
  | Eq => match a2 ?= b2 with
          | Eq => a3 ?= b3
          | c => c
          end
  | c => c
  end.

Definition ltk (a b : Z * Z * Z) : bool :=
  match lex3 a b with Lt => true | _ => false end.
Definition lek (a b : Z * Z * Z) : bool :=
  match lex3 a b with Gt => false | _ => true end.
Definition eqk (a b : Z * Z * Z) : bool :=
  match lex3 a b with Eq => true | _ => false end.

End PyFloat.

Import PyFloat.

(* ===================================================================== *)
(** * Exceptions and results *)
(* ===================================================================== *)

(** The exception classes the scraper's statements can raise. *)
Inductive exn : Type :=
| AttributeError      (* [None.text] *)
| TypeError           (* [None['href']] *)
| KeyError            (* a missing attribute or dict key, a missing column *)
| ValueError          (* [int] of a non-numeric text, malformed JSON *)
| IndexError          (* [[][0]] *)
| ZeroDivisionError
| OverflowError       (* integer division result too large for a float *)
| UnboundLocalError   (* a local variable read before its first assignment *)
| RequestException    (* [requests.get] failed *)
| IOError.            (* [open] failed *)

Inductive outcome (A : Type) : Type :=
| Normal (a : A)
| Raised (e : exn).
Arguments Normal {A} a.
Arguments Raised {A} e.

(** [a / b] on Python integers: true division. *)
Definition int_truediv (a b : Z) : outcome float :=
  if b =? 0 then Raised ZeroDivisionError
  else
    let q := nearest_quotient a b in
    if is_inf q then Raised OverflowError else Normal q.

(* ===================================================================== *)
(** * The classifier *)
(* ===================================================================== *)

(** [get_agreeance_text(ratio)]; [None] is Python's [None]. *)
Definition get_agreeance_text (ratio : float) : option string :=
  if fgt ratio f3 then Some "absolutely agrees"
  else if flt f2 ratio && fle ratio f3 then Some "strongly agrees"
  else if flt f1_5 ratio && fle ratio f2 then Some "agrees"
  else if flt f1 ratio && fle ratio f1_5 then Some "somewhat agrees"
  else if feq ratio f1 then Some "neutral"
  else if flt f0_67 ratio && flt ratio f1 then Some "somewhat disagrees"
  else if flt f0_5 ratio && fle ratio f0_67 then Some "disagrees"
  else if flt f0_33 ratio && fle ratio f0_5 then Some "strongly disagrees"
  else if fle ratio f0_33 then Some "absolutely disagrees"
  else None.

(** The table of section 4.1 of the specification, as data: one row per
    line, each with its own range and its label. *)
Definition ladder_4_1 : list ((float -> bool) * string) :=
  [ (fun r => fgt r f3,                      "absolutely agrees");
    (fun r => flt f2 r && fle r f3,           "strongly agrees");
    (fun r => flt f1_5 r && fle r f2,         "agrees");
    (fun r => flt f1 r && fle r f1_5,         "somewhat agrees");
    (fun r => feq r f1,                      "neutral");
    (fun r => flt f0_67 r && flt r f1,        "somewhat disagrees");
    (fun r => flt f0_5 r && fle r f0_67,      "disagrees");
    (fun r => flt f0_33 r && fle r f0_5,      "strongly disagrees");
    (fun r => fle r f0_33,                   "absolutely disagrees") ].

(** Top-down evaluation of a table: the first row that matches wins. *)
Fixpoint first_match (rows : list ((float -> bool) * string)) (r : float)
  : option string :=
  match rows with
  | [] => None
  | (cond, label) :: rest => if cond r then Some label else first_match rest r
  end.

(** The fixed vocabulary of labels. *)
Definition vocabulary : list string := map snd ladder_4_1.

(* ===================================================================== *)
(** * String built-ins *)
(* ===================================================================== *)

(** The [str] methods and the [int] constructor the scraper calls, on
    ASCII text. *)
Module PyStr.

(** [c.isspace()]: tab to carriage return, the four separators and the
    space. *)
Definition isspace (c : ascii) : bool :=
  let n := nat_of_ascii c in
  ((9 <=? n) && (n <=? 13) || (28 <=? n) && (n <=? 32))%nat.

Fixpoint lstrip (s : string) : string :=
  match s with
  | EmptyString => EmptyString
  | String c s' => if isspace c then lstrip s' else s
  end.

Fixpoint rstrip (s : string) : string :=
  match s with
  | EmptyString => EmptyString
  | String c s' =>
      match rstrip s' with
      | EmptyString => if isspace c then EmptyString else String c EmptyString
      | t => String c t
      end
  end.

(** [s.strip()] *)
Definition strip (s : string) : string := rstrip (lstrip s).

(** [s.split(sep)] for a one-character separator: never empty. *)
Fixpoint split (sep : ascii) (s : string) : list string :=
  match s with
  | EmptyString => [EmptyString]
  | String c s' =>
      if Ascii.eqb c sep then EmptyString :: split sep s'
      else match split sep s' with
           | seg :: segs => String c seg :: segs
           | [] => [String c EmptyString]
           end
  end.

(** [l[-1]] *)
Definition last_item (l : list string) : outcome string :=
  match rev l with
  | x :: _ => Normal x
  | [] => Raised IndexError
  end.

Definition digit_value (c : ascii) : option Z :=
  let n := nat_of_ascii c in
  if ((48 <=? n) && (n <=? 57))%nat then Some (Z.of_nat (n - 48)) else None.

(** Decimal digits, where a single underscore may stand between two
    digits.  [after_digit] tells whether the previous character was a
    digit. *)
Fixpoint digits (s : string) (acc : Z) (after_digit : bool) : option Z :=
  match s with
  | EmptyString => if after_digit then Some acc else None
  | String c s' =>
      match digit_value c with
      | Some d => digits s' (10 * acc + d) true
      | None =>
          if Ascii.eqb c "_" && after_digit then digits s' acc false
          else None
      end
  end.

(** [int(s)]: surrounding whitespace, an optional sign, digits. *)
Definition int (s : string) : outcome Z :=
  let t := strip s in
  let signed :=
    match t with
    | String "+" r => digits r 0 false
    | String "-" r => option_map Z.opp (digits r 0 false)
    | _ => digits t 0 false
    end in
  match signed with
  | Some z => Normal z
  | None => Raised ValueError
  end.

End PyStr.

(* ===================================================================== *)
(** * Markup handles and the network *)
(* ===================================================================== *)

(** What the scraper reads of an element: its text and its [href]
    attribute, when it has one. *)
Record Tag : Type := { tag_text : string; tag_href : option string }.

(** A table row, as the results of the five [select_one] queries made on
    it; [None] is the query finding no element. *)
Record Row : Type := {
  source_title : option Tag;    (* '.source-title' *)
  source_title_a : option Tag;  (* '.source-title a' *)
  bias_image_a : option Tag;    (* '.views-field-field-bias-image a' *)
  agree_el : option Tag;        (* '.agree' *)
  disagree_el : option Tag      (* '.disagree' *)
}.

(** A parsed document, as the results of the two [select] queries. *)
Record Doc : Type := {
  tbody_tr : list Row;          (* 'tbody tr' *)
  dynamic_grid_a : list Tag     (* '.dynamic-grid a' *)
}.

(** The network: what the [n]-th request of a run gets for a URL; [None]
    is [requests.get] raising. *)
Definition Net : Type := nat -> string -> option Doc.

(** [el.text] *)
Definition text_of (el : option Tag) : outcome string :=
  match el with
  | Some t => Normal (tag_text t)
  | None => Raised AttributeError
  end.

(** [el['href']] *)
Definition href_of (el : option Tag) : outcome string :=
  match el with
  | Some t =>
      match tag_href t with
      | Some h => Normal h
      | None => Raised KeyError
      end
  | None => Raised TypeError
  end.

(** [l[0]] *)
Definition first_item (l : list Tag) : outcome (option Tag) :=
  match l with
  | t :: _ => Normal (Some t)
  | [] => Raised IndexError
  end.

(* ===================================================================== *)
(** * Dictionaries *)
(* ===================================================================== *)

Inductive value : Type :=
| VStr (s : string)
| VInt (z : Z)
| VFloat (f : float)
| VNone.

(** A [dict] with string keys, in insertion order. *)
Definition dict : Type := list (string * value).

Fixpoint dict_get (k : string) (d : dict) : option value :=
  match d with
  | [] => None
  | (k', v) :: d' => if String.eqb k k' then Some v else dict_get k d'
  end.

(** [d[k] = v]: an existing key keeps its place. *)
Fixpoint dict_set (k : string) (v : value) (d : dict) : dict :=
  match d with
  | [] => [(k, v)]
  | (k', v') :: d' =>
      if String.eqb k k' then (k', v) :: d' else (k', v') :: dict_set k v d'
  end.

Definition keys (d : dict) : list string := map fst d.

(** [x / y] on stored values; the scraper divides integers only. *)
Definition value_truediv (x y : value) : outcome value :=
  match x, y with
  | VInt a, VInt b =>
      match int_truediv a b with
      | Normal q => Normal (VFloat q)
      | Raised e => Raised e
      end
  | _, _ => Raised TypeError
  end.

(** [get_agreeance_text] called on a stored value; the scraper passes the
    float it has just computed. *)
Definition value_agreeance_text (x : value) : outcome value :=
  match x with
  | VFloat r =>
      Normal match get_agreeance_text r with
             | Some label => VStr label
             | None => VNone
             end
  | _ => Raised TypeError
  end.

(** [prefix + x] for a stored string. *)
Definition value_str (x : value) : outcome string :=
  match x with
  | VStr s => Normal s
  | _ => Raised TypeError
  end.

(* ===================================================================== *)
(** * The scraper *)
(* ===================================================================== *)

(** The store [build_data] works on: its local variables [data], [rows]
    and [d] ([None] while a variable is unbound), the number of requests
    made so far and the seconds slept. *)
Record Env : Type := {
  requests_made : nat;
  slept : nat;
  v_data : list dict;
  v_rows : option (list Row);
  v_d : option dict
}.

Definition init_env : Env :=
  {| requests_made := 0; slept := 0; v_data := []; v_rows := None; v_d := None |}.

(** The store after one more request. *)
Definition after_request (s : Env) : Env :=
  {| requests_made := S (requests_made s); slept := slept s;
     v_data := v_data s; v_rows := v_rows s; v_d := v_d s |}.

(** Statements: a store transformer that ends normally or by raising.  A
    raise keeps the store as the statement left it. *)
Definition M (A : Type) : Type := Env -> outcome A * Env.

Definition ret {A} (a : A) : M A := fun s => (Normal a, s).

Definition bind {A B} (m : M A) (k : A -> M B) : M B :=
  fun s =>
    match m s with
    | (Normal a, s') => k a s'
    | (Raised e, s') => (Raised e, s')
    end.

Definition lift {A} (o : outcome A) : M A := fun s => (o, s).

(** [try: body / except: handler], the bare [except] that catches all. *)
Definition try_except (body handler : M unit) : M unit :=
  fun s =>
    match body s with
    | (Normal _, s') => (Normal tt, s')
    | (Raised _, s') => handler s'
    end.

Declare Scope stmt_scope.
Delimit Scope stmt_scope with stmt.
Notation "x <- m ;; k" := (bind m (fun x => k))
  (at level 61, m at next level, right associativity) : stmt_scope.
Notation "m ;; k" := (bind m (fun _ => k))
  (at level 61, right associativity) : stmt_scope.
Local Open Scope stmt_scope.

(** [for x in xs: body]; [xs] is the list the loop was started on. *)
Fixpoint for_each {A} (xs : list A) (body : A -> M unit) : M unit :=
  match xs with
  | [] => ret tt
  | x :: xs' => body x ;; for_each xs' body
  end.

(** Assignments to and reads of the local variables. *)
Definition set_data (l : list dict) : M unit :=
  fun s => (Normal tt,
            {| requests_made := requests_made s; slept := slept s;
               v_data := l; v_rows := v_rows s; v_d := v_d s |}).

Definition set_rows (l : list Row) : M unit :=
  fun s => (Normal tt,
            {| requests_made := requests_made s; slept := slept s;
               v_data := v_data s; v_rows := Some l; v_d := v_d s |}).

Definition set_d (d : dict) : M unit :=
  fun s => (Normal tt,
            {| requests_made := requests_made s; slept := slept s;
               v_data := v_data s; v_rows := v_rows s; v_d := Some d |}).

Definition get_data : M (list dict) := fun s => (Normal (v_data s), s).

Definition get_rows : M (list Row) :=
  fun s =>
    match v_rows s with
    | Some l => (Normal l, s)
    | None => (Raised UnboundLocalError, s)
    end.

Definition get_d : M dict :=
  fun s =>
    match v_d s with
    | Some d => (Normal d, s)
    | None => (Raised UnboundLocalError, s)
    end.

(** [d[k] = v] *)
Definition d_setitem (k : string) (v : value) : M unit :=
  d <- get_d ;; set_d (dict_set k v d).

(** [d[k]] *)
Definition d_getitem (k : string) : M value :=
  d <- get_d ;;
  match dict_get k d with
  | Some v => ret v
  | None => lift (Raised KeyError)
  end.

(** [data.append(d)] *)
Definition data_append : M unit :=
  d <- get_d ;; l <- get_data ;; set_data (l ++ [d])%list.

(** [sleep(n)] *)
Definition sleep (n : nat) : M unit :=
  fun s => (Normal tt,
            {| requests_made := requests_made s; slept := (slept s + n)%nat;
               v_data := v_data s; v_rows := v_rows s; v_d := v_d s |}).

(** The two loggers are outside the scraper: a logging call has had its
    arguments evaluated and returns. *)
Definition scraper_info (template : string) (args : list value) : M unit := ret tt.
Definition scraper_debug (template : string) (args : list value) : M unit := ret tt.
Definition scraper_warning (template : string) (args : list value) : M unit := ret tt.

(** The page list of the source. *)
Definition pages : list string :=
  [ "https://www.allsides.com/media-bias/media-bias-ratings";
    "https://www.allsides.com/media-bias/media-bias-ratings?page=1";
    "https://www.allsides.com/media-bias/media-bias-ratings?page=2" ].

Section Scraper.

Variable net : Net.

(** [BeautifulSoup(requests.get(url).content, 'html.parser')]: the
    request may raise, the parser takes any content. *)
Definition requests_get (url : string) : M Doc :=
  fun s =>
    match net (requests_made s) url with
    | Some doc => (Normal doc, after_request s)
    | None => (Raised RequestException, after_request s)
    end.

(** Lines 125-130, the body of the page-level [try]. *)
Definition page_try (page : string) : M unit :=
  soup <- requests_get page ;;
  scraper_debug "Request made to page: {}" [VStr page] ;;
  scraper_debug "Soup created" [] ;;
  set_rows (tbody_tr soup) ;;
  scraper_debug "All table rows (<tr>) child of body tag (<tbody>) extracted" [].

(** Line 132, the page-level handler. *)
Definition page_except (page : string) : M unit :=
  scraper_warning "Failed to get page: {}" [VStr page].

(** Lines 136-154, the body of the row-level [try]. *)
Definition row_try (row : Row) : M unit :=
  set_d [] ;;
  title <- lift (text_of (source_title row)) ;;
  d_setitem "name" (VStr (PyStr.strip title)) ;;
  href <- lift (href_of (source_title_a row)) ;;
  d_setitem "allsides_page" (VStr ("https://www.allsides.com" ++ href)) ;;
  bias_href <- lift (href_of (bias_image_a row)) ;;
  bias <- lift (PyStr.last_item (PyStr.split "/" bias_href)) ;;
  d_setitem "bias" (VStr bias) ;;
  agree_text <- lift (text_of (agree_el row)) ;;
  agree <- lift (PyStr.int agree_text) ;;
  d_setitem "agree" (VInt agree) ;;
  disagree_text <- lift (text_of (disagree_el row)) ;;
  disagree <- lift (PyStr.int disagree_text) ;;
  d_setitem "disagree" (VInt disagree) ;;
  a <- d_getitem "agree" ;;
  b <- d_getitem "disagree" ;;
  ratio <- lift (value_truediv a b) ;;
  d_setitem "agree_ratio" ratio ;;
  r <- d_getitem "agree_ratio" ;;
  label <- lift (value_agreeance_text r) ;;
  d_setitem "agreeance_text" label ;;
  page1 <- d_getitem "allsides_page" ;;
  scraper_debug "Attempting request to inner page to extract media outlet website: {}" [page1] ;;
  sleep 10 ;;
  page2 <- d_getitem "allsides_page" ;;
  url <- lift (value_str page2) ;;
  ssoup <- requests_get url ;;
  page3 <- d_getitem "allsides_page" ;;
  scraper_debug "Request made to inner page: {}" [page3] ;;
  scraper_debug "Inner page soup created" [] ;;
  link <- lift (first_item (dynamic_grid_a ssoup)) ;;
  news <- lift (href_of link) ;;
  d_setitem "news_page" (VStr news) ;;
  d' <- get_d ;;
  scraper_debug "Dictionary complete: {}" (map snd d') ;;
  data_append.

(** Line 156, the row-level handler: its message reads
    [d['allsides_page']]. *)
Definition row_except : M unit :=
  page <- d_getitem "allsides_page" ;;
  scraper_warning "Failed to get inner page: {}" [page].

(** Lines 135-156, one turn of the row loop. *)
Definition row_step (row : Row) : M unit :=
  try_except (row_try row) row_except.

(** Lines 123-157, one turn of the page loop.  The row loop runs on
    whatever [rows] is bound to when the page-level [try] statement is
    over. *)
Definition page_step (page : string) : M unit :=
  scraper_info "Considering page: {}" [VStr page] ;;
  try_except (page_try page) (page_except page) ;;
  rows <- get_rows ;;
  for_each rows row_step ;;
  sleep 10.

(** [build_data(pages)] *)
Definition build_data (pages : list string) : M (list dict) :=
  scraper_info "Initializing build_data function (scraper)" [] ;;
  set_data [] ;;
  for_each pages page_step ;;
  scraper_info "Scraping complete" [] ;;
  get_data.

End Scraper.

(** A run of [build_data] from a fresh frame. *)
Definition run_build_data (net : Net) (pages : list string)
  : outcome (list dict) :=
  fst (build_data net pages init_env).

(* ===================================================================== *)
(** * The exporter *)
(* ===================================================================== *)

(** What [open(json_path / 'allsides.json')] and the JSON parser find. *)
Inductive json_file : Type :=
| Missing                        (* [open] raises *)
| Malformed                      (* the content is not JSON *)
| Records (records : list dict). (* a JSON array of objects *)

(** The part of a pandas [DataFrame] the exporter uses: the column labels
    and, row by row, one cell per column. *)
Record DataFrame : Type := {
  df_columns : list string;
  df_rows : list (list value)
}.

(** [pd.DataFrame({})] *)
Definition empty_frame : DataFrame := {| df_columns := []; df_rows := [] |}.

Definition mem (k : string) (l : list string) : bool :=
  existsb (String.eqb k) l.

(** The labels of [ks] that [seen] lacks, appended to [seen]. *)
Fixpoint add_keys (ks seen : list string) : list string :=
  match ks with
  | [] => seen
  | k :: ks' =>
      if mem k seen then add_keys ks' seen
      else add_keys ks' (seen ++ [k])%list
  end.

(** Every key of the records, in order of first appearance. *)
Definition all_keys (records : list dict) : list string :=
  fold_left (fun seen r => add_keys (keys r) seen) records [].

(** The missing-value marker of pandas. *)
Definition NaN : value := VFloat S754_nan.

Definition record_cell (r : dict) (c : string) : value :=
  match dict_get c r with
  | Some v => v
  | None => NaN
  end.

(** [pd.read_json(open(...))]: one column per key, one row per object, a
    cell of a key the object lacks is missing. *)
Definition read_json (file : json_file) : outcome DataFrame :=
  match file with
  | Missing => Raised IOError
  | Malformed => Raised ValueError
  | Records records =>
      let cols := all_keys records in
      Normal {| df_columns := cols;
                df_rows := map (fun r => map (record_cell r) cols) records |}
  end.

(** [df[cols]]: every label must be a column. *)
Definition select_columns (cols : list string) (df : DataFrame)
  : outcome DataFrame :=
  if forallb (fun c => mem c (df_columns df)) cols then
    Normal {| df_columns := cols;
              df_rows := map (fun row =>
                                map (record_cell (combine (df_columns df) row)) cols)
                             (df_rows df) |}
  else Raised KeyError.

(** [df.rename(columns = mapping, inplace = True)] *)
Definition rename_columns (mapping : list (string * string)) (df : DataFrame)
  : DataFrame :=
  {| df_columns :=
       map (fun c => match find (fun p => String.eqb c (fst p)) mapping with
                     | Some p => snd p
                     | None => c
                     end) (df_columns df);
     df_rows := df_rows df |}.

(** The column list of line 205. *)
Definition selected_fields : list string :=
  [ "name"; "news_page"; "allsides_page"; "bias"; "agree"; "disagree";
    "agree_ratio"; "agreeance_text" ].

(** The mapping of lines 206-207. *)
Definition renaming : list (string * string) :=
  [ ("name", "Name"); ("news_page", "News_Page");
    ("allsides_page", "Allsides_Page"); ("bias", "Media_Bias");
    ("agree", "Agree_Count"); ("disagree", "Disagree_Count");
    ("agree_ratio", "Agreeance_Ratio"); ("agreeance_text", "Agreeance") ].

(** [build_dataframe()], as a function of the file it reads. *)
Definition build_dataframe (file : json_file) : DataFrame :=
  let attempt :=
    match read_json file with
    | Normal df =>
        match select_columns selected_fields df with
        | Normal df' => Normal (rename_columns renaming df')
        | Raised e => Raised e
        end
    | Raised e => Raised e
    end in
  match attempt with
  | Normal df => df
  | Raised _ => empty_frame
  end.


(* ===================================================================== *)
(** * The pipeline as the specification describes it *)
(* ===================================================================== *)

(** Sections 4.2 to 4.4 of the specification describe the scraper as
    three components, each returning its failures to its caller.  They
    are written here after its words, to be compared with [build_data];
    [n] counts the requests made so far, as [requests_made] does. *)
Module Spec.

Definition and_then {A B} (o : outcome A) (k : A -> outcome B) : outcome B :=
  match o with
  | Normal a => k a
  | Raised e => Raised e
  end.

(** 4.2, first half: the fields parsed from the row, the ratio and its
    label; with the address of the outlet's page on the source site. *)
Definition row_fields (row : Row) : outcome (string * dict) :=
  and_then (text_of (source_title row)) (fun title =>
  and_then (href_of (source_title_a row)) (fun href =>
  and_then (href_of (bias_image_a row)) (fun bias_href =>
  and_then (PyStr.last_item (PyStr.split "/" bias_href)) (fun bias =>
  and_then (text_of (agree_el row)) (fun agree_text =>
  and_then (PyStr.int agree_text) (fun agree =>
  and_then (text_of (disagree_el row)) (fun disagree_text =>
  and_then (PyStr.int disagree_text) (fun disagree =>
  and_then (int_truediv agree disagree) (fun ratio =>
  let url := "https://www.allsides.com" ++ href in
  Normal (url,
          [ ("name", VStr (PyStr.strip title));
            ("allsides_page", VStr url);
            ("bias", VStr bias);
            ("agree", VInt agree);
            ("disagree", VInt disagree);
            ("agree_ratio", VFloat ratio);
            ("agreeance_text",
             match get_agreeance_text ratio with
             | Some label => VStr label
             | None => VNone
             end) ])))))))))).

(** 4.2, OutletExtractor: the record of a row or its failure, and the
    request counter afterwards.  One request is made, for the outlet's
    page, once the fields of the row are there. *)
Definition extract (net : Net) (n : nat) (row : Row) : outcome dict * nat :=
  match row_fields row with
  | Raised e => (Raised e, n)
  | Normal (url, fields) =>
      (and_then (match net n url with
                 | Some doc => Normal doc
                 | None => Raised RequestException
                 end) (fun doc =>
       and_then (first_item (dynamic_grid_a doc)) (fun link =>
       and_then (href_of link) (fun news =>
       Normal (fields ++ [("news_page", VStr news)])%list))),
       S n)
  end.

(** 4.3, PageScraper, on the rows of a page: the records of the rows that
    extract, in row order; a row that fails is skipped. *)
Fixpoint scrape_rows (net : Net) (n : nat) (rows : list Row)
  : list dict * nat :=
  match rows with
  | [] => ([], n)
  | row :: rest =>
      let (o, n1) := extract net n row in
      let (ds, n2) := scrape_rows net n1 rest in
      (match o with
       | Normal d => d :: ds
       | Raised _ => ds
       end, n2)
  end.

(** 4.3, PageScraper: a page whose fetch fails yields no rows. *)
Definition scrape (net : Net) (n : nat) (page : string) : list dict * nat :=
  match net n page with
  | Some doc => scrape_rows net (S n) (tbody_tr doc)
  | None => ([], S n)
  end.

(** 4.4, CollectionPipeline: the records of the pages, in page order. *)
Fixpoint run (net : Net) (n : nat) (pgs : list string) : list dict :=
  match pgs with
  | [] => []
  | page :: rest =>
      let (ds, n1) := scrape net n page in
      (ds ++ run net n1 rest)%list
  end.

End Spec.

(** The records an extraction outcome adds to the result. *)
Definition successes (o : outcome dict) : list dict :=
  match o with
  | Normal d => [d]
  | Raised _ => []
  end.

(** A row that has its title cell and the link in it. *)
Definition row_titled (row : Row) : bool :=
  match text_of (source_title row), href_of (source_title_a row) with
  | Normal _, Normal _ => true
  | _, _ => false
  end.

(** A run in which every page is fetched and every row is titled. *)
Fixpoint healthy (net : Net) (n : nat) (pgs : list string) : bool :=
  match pgs with
  | [] => true
  | page :: rest =>
      match net n page with
      | Some doc =>
          forallb row_titled (tbody_tr doc)
          && healthy net (snd (Spec.scrape net n page)) rest
      | None => false
      end
  end.

(* ===================================================================== *)
(** * Records and runs used in the statements *)
(* ===================================================================== *)

(** The eight keys of a complete record, in the order [build_data] sets
    them. *)
Definition record_fields : list string :=
  [ "name"; "allsides_page"; "bias"; "agree"; "disagree"; "agree_ratio";
    "agreeance_text"; "news_page" ].

(** A record as [build_data] appends it: the eight keys and no other, the
    ratio being the quotient of the two counts and the label being the
    classifier's answer for that ratio. *)
Definition complete_record (d : dict) : Prop :=
  keys d = record_fields /\
  exists a b q,
    dict_get "agree" d = Some (VInt a) /\
    dict_get "disagree" d = Some (VInt b) /\
    int_truediv a b = Normal q /\
    dict_get "agree_ratio" d = Some (VFloat q) /\
    dict_get "agreeance_text" d =
      Some match get_agreeance_text q with
           | Some label => VStr label
           | None => VNone
           end.

(** The invariant of the loops: [data] holds complete records only. *)
Definition all_complete (s : Env) : Prop := Forall complete_record (v_data s).

(** The agree and disagree counts of a row on which [row_try] gets as far
    as its division: the title, both links and both counters are there,
    and the counters read as integers. *)
Definition row_counts (row : Row) : option (Z * Z) :=
  match text_of (source_title row), href_of (source_title_a row),
        href_of (bias_image_a row),
        text_of (agree_el row), text_of (disagree_el row) with
  | Normal _, Normal _, Normal _, Normal agree_text, Normal disagree_text =>
      match PyStr.int agree_text, PyStr.int disagree_text with
      | Normal agree, Normal disagree => Some (agree, disagree)
      | _, _ => None
      end
  | _, _, _, _, _ => None
  end.

(** Whether a record has a field, and whether it has every field the
    exporter selects. *)
Definition has_field (d : dict) (c : string) : bool :=
  match dict_get c d with
  | Some _ => true
  | None => false
  end.


(** A row of the ratings table with all its elements. *)
Definition outlet_row (name slug bias agree disagree : string) : Row :=
  {| source_title := Some {| tag_text := name; tag_href := None |};
     source_title_a :=
       Some {| tag_text := name; tag_href := Some ("/news-source/" ++ slug) |};
     bias_image_a :=
       Some {| tag_text := ""; tag_href := Some ("/media-bias/" ++ bias) |};
     agree_el := Some {| tag_text := agree; tag_href := None |};
     disagree_el := Some {| tag_text := disagree; tag_href := None |} |}.

(** A row without its title cell. *)
Definition untitled_row (bias agree disagree : string) : Row :=
  {| source_title := None;
     source_title_a := None;
     bias_image_a :=
       Some {| tag_text := ""; tag_href := Some ("/media-bias/" ++ bias) |};
     agree_el := Some {| tag_text := agree; tag_href := None |};
     disagree_el := Some {| tag_text := disagree; tag_href := None |} |}.

Definition table_page (rows : list Row) : Doc :=
  {| tbody_tr := rows; dynamic_grid_a := [] |}.

Definition outlet_page (home : string) : Doc :=
  {| tbody_tr := [];
     dynamic_grid_a := [ {| tag_text := "website"; tag_href := Some home |} ] |}.

(** A network that answers every request for a listed URL with the same
    document, and fails every other request. *)
Definition static_net (site : list (string * Doc)) : Net :=
  fun _ url =>
    match find (fun p => String.eqb url (fst p)) site with
    | Some p => Some (snd p)
    | None => None
    end.

Definition page_0 : string := "https://www.allsides.com/media-bias/media-bias-ratings".
Definition page_1 : string := "https://www.allsides.com/media-bias/media-bias-ratings?page=1".
Definition page_2 : string := "https://www.allsides.com/media-bias/media-bias-ratings?page=2".

Definition outlet_url (slug : string) : string :=
  "https://www.allsides.com/news-source/" ++ slug.

(** The outlet pages of nine outlets. *)
Definition outlet_site : list (string * Doc) :=
  map (fun slug => (outlet_url slug, outlet_page ("https://" ++ slug ++ ".example")))
      [ "a"; "b"; "c"; "d"; "e"; "f"; "g"; "h"; "i" ].

(** Row A and row B of the specification's scenario. *)
Definition row_A : Row := outlet_row "Outlet A" "a" "left" "12" "4".
Definition row_B : Row := outlet_row "Outlet B" "b" "right" "3" "9".

Definition net_AB : Net :=
  static_net ((page_0, table_page [row_A; row_B]) :: outlet_site).

(** The records [build_data] makes of row A and row B. *)
Definition record_A : dict :=
  [ ("name", VStr "Outlet A");
    ("allsides_page", VStr "https://www.allsides.com/news-source/a");
    ("bias", VStr "left"); ("agree", VInt 12); ("disagree", VInt 4);
    ("agree_ratio", VFloat f3); ("agreeance_text", VStr "strongly agrees");
    ("news_page", VStr "https://a.example") ].

Definition record_B : dict :=
  [ ("name", VStr "Outlet B");
    ("allsides_page", VStr "https://www.allsides.com/news-source/b");
    ("bias", VStr "right"); ("agree", VInt 3); ("disagree", VInt 9);
    ("agree_ratio", VFloat f_third);
    ("agreeance_text", VStr "strongly disagrees");
    ("news_page", VStr "https://b.example") ].

(** Five rows on the first page, four on the third; the second page is
    not listed, so fetching it fails. *)
Definition rows_first : list Row :=
  [ outlet_row "Outlet A" "a" "left" "12" "4";
    outlet_row "Outlet B" "b" "right" "3" "9";
    outlet_row "Outlet C" "c" "center" "10" "10";
    outlet_row "Outlet D" "d" "left-center" "7" "5";
    outlet_row "Outlet E" "e" "right-center" "2" "3" ].

Definition rows_third : list Row :=
  [ outlet_row "Outlet F" "f" "left" "40" "10";
    outlet_row "Outlet G" "g" "right" "9" "5";
    outlet_row "Outlet H" "h" "center" "11" "20";
    outlet_row "Outlet I" "i" "allsides" "1" "2" ].

Definition net_second_page_down : Net :=
  static_net ((page_0, table_page rows_first)
              :: (page_2, table_page rows_third) :: outlet_site).

(** The first page cannot be fetched, the other two can. *)
Definition net_first_page_down : Net :=
  static_net ((page_1, table_page rows_first)
              :: (page_2, table_page rows_third) :: outlet_site).

(** No page of the table can be fetched. *)
Definition net_down : Net := static_net [].

(** One page whose second row has lost its title cell. *)
Definition net_untitled_row : Net :=
  static_net ((page_0, table_page [row_A; untitled_row "right" "3" "9"])
              :: outlet_site).

(** One good row on the first page; the second page cannot be fetched. *)
Definition net_one_then_down : Net :=
  static_net ((page_0, table_page [row_A]) :: outlet_site).

(** A row whose disagree count is zero. *)
Definition row_zero_disagree : Row := outlet_row "Outlet Z" "c" "center" "5" "0".

(* ===================================================================== *)
(** * Further notions used in the statements *)
(* ===================================================================== *)

(** Position of a label in a list of labels. *)
Fixpoint index_of (l : string) (ls : list string) : nat :=
  match ls with
  | [] => 0
  | x :: rest => if String.eqb l x then 0 else S (index_of l rest)
  end.

(** How far down the ladder the label of a ratio stands: 0 for
    "absolutely agrees", 8 for "absolutely disagrees", 9 when
    [get_agreeance_text] returns [None]. *)
Definition rank (r : float) : nat :=
  match get_agreeance_text r with
  | Some l => index_of l vocabulary
  | None => List.length vocabulary
  end.

(** Whether a character occurs in a string. *)
Fixpoint contains (c : ascii) (s : string) : bool :=
  match s with
  | EmptyString => false
  | String c' s' => Ascii.eqb c' c || contains c s'
  end.

Definition starts_with_space (s : string) : bool :=
  match s with
  | EmptyString => false
  | String c _ => PyStr.isspace c
  end.

Fixpoint ends_with_space (s : string) : bool :=
  match s with
  | EmptyString => false
  | String c EmptyString => PyStr.isspace c
  | String _ s' => ends_with_space s'
  end.

(** The eight fields of a record, each with the type [build_data] gives
    it. *)
Definition record_of (name page bias : string) (agree disagree : Z)
  (ratio : float) (label news : string) : dict :=
  [ ("name", VStr name); ("allsides_page", VStr page); ("bias", VStr bias);
    ("agree", VInt agree); ("disagree", VInt disagree);
    ("agree_ratio", VFloat ratio); ("agreeance_text", VStr label);
    ("news_page", VStr news) ].

(** What holds of the fields of a record that [build_data] has appended. *)
Definition well_formed_record (d : dict) : Prop :=
  exists name path bias agree disagree ratio label news,
    d = record_of name ("https://www.allsides.com" ++ path) bias
                  agree disagree ratio label news /\
    PyStr.strip name = name /\
    contains "/" bias = false /\
    disagree <> 0 /\
    int_truediv agree disagree = Normal ratio /\
    is_finite ratio = true /\
    get_agreeance_text ratio = Some label /\
    In label vocabulary.

(** From store [s0] to store [s], ten seconds were slept for each request
    made. *)
Definition paced (s0 s : Env) : Prop :=
  (slept s + 10 * requests_made s0 = slept s0 + 10 * requests_made s)%nat /\
  (requests_made s0 <= requests_made s)%nat.

Definition row_no_agree : Row := outlet_row "Outlet D" "d" "left" "0" "7".
Definition record_without_news : dict :=
  [ ("name", VStr "Outlet A");
    ("allsides_page", VStr "https://www.allsides.com/news-source/a");
    ("bias", VStr "left"); ("agree", VInt 12); ("disagree", VInt 4);
    ("agree_ratio", VFloat f3); ("agreeance_text", VStr "strongly agrees") ].

(* ===================================================================== *)
(** * Facts about float comparison *)
(* ===================================================================== *)

Lemma SFcompare_key (x y : float) :
  SFcompare x y =
  match key x, key y with
  | Some a, Some b => Some (lex3 a b)
  | _, _ => None
  end.
Proof.
  destruct x as [sx|sx| |sx mx ex], y as [sy|sy| |sy my ey];
    try destruct sx; try destruct sy; try reflexivity.
  cbn [SFcompare key lex3]. rewrite Z.compare_opp.
  change (-1 ?= -1) with Eq. cbn [Z.compare].
  rewrite (Z.compare_antisym ex ey).
  destruct (ex ?= ey); reflexivity.
Qed.

Lemma flt_key (x y : float) :
  flt x y = match key x, key y with
            | Some a, Some b => ltk a b
            | _, _ => false
            end.
Proof.
  unfold flt, SFltb, ltk. rewrite SFcompare_key.
  destruct (key x), (key y); reflexivity.
Qed.

Lemma fgt_key (x y : float) :
  fgt x y = match key x, key y with
            | Some a, Some b => ltk b a
            | _, _ => false
            end.
Proof.
  unfold fgt. rewrite flt_key. destruct (key x), (key y); reflexivity.
Qed.

Lemma fle_key (x y : float) :
  fle x y = match key x, key y with
            | Some a, Some b => lek a b
            | _, _ => false
            end.
Proof.
  unfold fle, SFleb, lek. rewrite SFcompare_key.
  destruct (key x), (key y); reflexivity.
Qed.

Lemma feq_key (x y : float) :
  feq x y = match key x, key y with
            | Some a, Some b => eqk a b
            | _, _ => false
            end.
Proof.
  unfold feq, SFeqb, eqk. rewrite SFcompare_key.
  destruct (key x), (key y); reflexivity.
Qed.

Lemma lex3_eq (a b : Z * Z * Z) : lex3 a b = Eq -> a = b.
Proof.
  destruct a as [[a1 a2] a3], b as [[b1 b2] b3]. unfold lex3.
  destruct (Z.compare_spec a1 b1); try discriminate.
  destruct (Z.compare_spec a2 b2); try discriminate.
  destruct (Z.compare_spec a3 b3); try discriminate.
  intros _. congruence.
Qed.

(** Floats that compare equal sit at the same place of the order. *)
Lemma feq_same_key (x y : float) : feq x y = true -> key x = key y.
Proof.
  rewrite feq_key. destruct (key x) as [a|], (key y) as [b|]; try discriminate.
  unfold eqk. intros H. f_equal. apply lex3_eq.
  destruct (lex3 a b); [reflexivity | discriminate | discriminate].
Qed.

(** Rewrites every comparison into a comparison of keys. *)
Ltac float_keys :=
  rewrite ?flt_key, ?fgt_key, ?fle_key, ?feq_key in *;
  cbn [key f3 f2 f1_5 f1 f0_67 f0_5 f0_33 f0] in *.

(** Case analysis on every integer comparison in sight; the impossible
    combinations are closed by linear arithmetic. *)
Ltac split_compare :=
  repeat match goal with
    | |- context [Z.compare ?a ?b] =>
        destruct (Z.compare_spec a b); try (exfalso; lia)
    | H : context [Z.compare ?a ?b] |- _ =>
        destruct (Z.compare_spec a b); try (exfalso; lia)
    end.

(** Settles a goal about the ladder at a float [r] none of whose
    comparisons has been evaluated yet. *)
Ltac ladder r :=
  unfold get_agreeance_text; float_keys;
  destruct (key r) as [[[? ?] ?]|];
  unfold ltk, lek, eqk, lex3 in *;
  try discriminate;
  split_compare; cbn in *; try discriminate; try reflexivity.

(** The label depends on the place of the ratio in the order only. *)
Lemma get_agreeance_text_key (x y : float) :
  key x = key y -> get_agreeance_text x = get_agreeance_text y.
Proof.
  intros H. unfold get_agreeance_text.
  rewrite !flt_key, !fgt_key, !fle_key, !feq_key, H. reflexivity.
Qed.

(** The float literals of the ladder are the binary64 values nearest to
    the decimals written in the source. *)
Lemma literals_rounded :
  nearest_quotient 33 100 = f0_33 /\ nearest_quotient 5 10 = f0_5 /\
  nearest_quotient 67 100 = f0_67 /\ nearest_quotient 15 10 = f1_5 /\
  nearest_quotient 1 1 = f1 /\ nearest_quotient 2 1 = f2 /\
  nearest_quotient 3 1 = f3.
Proof. repeat split; vm_compute; reflexivity. Qed.

(** A ratio above zero gets a label. *)
Lemma positive_labelled (ratio : float) :
  fgt ratio f0 = true -> get_agreeance_text ratio <> None.
Proof. intros H. ladder ratio. Qed.

(** The label of a ratio is in the vocabulary. *)
Lemma label_in_vocabulary (ratio : float) (label : string) :
  get_agreeance_text ratio = Some label -> In label vocabulary.
Proof.
  unfold get_agreeance_text, vocabulary, ladder_4_1. cbn [map snd].
  repeat match goal with
         | |- context [if ?c then _ else _] => destruct c
         end;
    intros H; inversion H; subst; cbn; tauto.
Qed.

(** The ranges of the table are pairwise disjoint: a ratio inside the
    range of a row gets the label of that row. *)
Lemma ladder_row_label (ratio : float) (cond : float -> bool) (label : string) :
  In (cond, label) ladder_4_1 -> cond ratio = true ->
  get_agreeance_text ratio = Some label.
Proof.
  unfold ladder_4_1. cbn [In].
  intros [H|[H|[H|[H|[H|[H|[H|[H|[H|[]]]]]]]]]];
    inversion H; subst; clear H; cbn beta; intros H;
    try (apply andb_true_iff in H; destruct H as [H H']);
    ladder ratio.
Qed.

(** The source's chain of [if]/[elif] is the table read top-down. *)
Lemma get_agreeance_text_first_match (ratio : float) :
  get_agreeance_text ratio = first_match ladder_4_1 ratio.
Proof. reflexivity. Qed.

Lemma non_positive_label (ratio : float) :
  fle ratio f0 = true -> get_agreeance_text ratio = Some "absolutely disagrees".
Proof. intros H. ladder ratio. Qed.

(* ===================================================================== *)
(** * Facts about true division *)
(* ===================================================================== *)

Lemma shr_1_nonneg (mrs : shr_record) : 0 <= shr_m mrs -> 0 <= shr_m (shr_1 mrs).
Proof.
  destruct mrs as [m r s]. cbn [shr_m]. intros H.
  destruct m as [|p|p]; [ | destruct p | lia ]; cbn; lia.
Qed.

Lemma iter_shr_1_nonneg (p : positive) (mrs : shr_record) :
  0 <= shr_m mrs -> 0 <= shr_m (iter_pos shr_1 p mrs).
Proof.
  revert mrs. induction p as [p IH|p IH|]; intros mrs H; cbn [iter_pos].
  - apply IH, IH, shr_1_nonneg, H.
  - apply IH, IH, H.
  - apply shr_1_nonneg, H.
Qed.

Lemma shr_fexp_nonneg (m e : Z) (l : location) :
  0 <= m -> 0 <= shr_m (fst (shr_fexp prec emax m e l)).
Proof.
  intros H. unfold shr_fexp, shr.
  assert (H0 : 0 <= shr_m (shr_record_of_loc m l))
    by (destruct l as [|[]]; exact H).
  destruct (fexp prec emax (Zdigits2 m + e) - e); cbn [fst]; auto.
  apply iter_shr_1_nonneg, H0.
Qed.

Lemma round_nearest_even_nonneg (m : Z) (l : location) :
  0 <= m -> 0 <= round_nearest_even m l.
Proof.
  intros H. unfold round_nearest_even.
  destruct l as [|[]]; try destruct (Z.even m); lia.
Qed.

Lemma binary_round_aux_not_nan (s : bool) (m e : Z) (l : location) :
  0 <= m -> binary_round_aux prec emax s m e l <> S754_nan.
Proof.
  intros H. unfold binary_round_aux.
  pose proof (shr_fexp_nonneg m e l H) as H1.
  destruct (shr_fexp prec emax m e l) as [mrs' e']. cbn [fst] in H1.
  pose proof (shr_fexp_nonneg _ e' loc_Exact
                (round_nearest_even_nonneg _ (loc_of_shr_record mrs') H1)) as H2.
  destruct (shr_fexp prec emax _ e' loc_Exact) as [mrs'' e'']. cbn [fst] in H2.
  destruct (shr_m mrs'') as [|p|p]; [discriminate | | lia].
  destruct (e'' <=? emax - prec); discriminate.
Qed.

Lemma nearest_quotient_not_nan (a b : Z) :
  b <> 0 -> nearest_quotient a b <> S754_nan.
Proof.
  intros Hb. unfold nearest_quotient.
  destruct b as [|pb|pb]; [congruence | |];
    (destruct a as [|pa|pa]; cbn [of_int SFdiv]; [discriminate | |]);
    unfold SFdiv_core_binary;
    match goal with
    | |- context [Z.div_eucl ?x ?y] =>
        pose proof (Z_div_mod x y eq_refl) as Hd;
        assert (Hx : 0 <= x);
        [ | destruct (Z.div_eucl x y) as [q r];
            apply binary_round_aux_not_nan; nia ]
    end.
  all: match goal with
       | |- 0 <= match ?s with _ => _ end =>
           destruct s; try lia; apply Z.shiftl_nonneg; lia
       end.
Qed.

Lemma int_truediv_finite (a b : Z) (q : float) :
  int_truediv a b = Normal q -> is_finite q = true.
Proof.
  unfold int_truediv. destruct (Z.eqb_spec b 0) as [|Hb]; [discriminate|].
  pose proof (nearest_quotient_not_nan a b Hb) as Hn.
  destruct (nearest_quotient a b); cbn; intros H; inversion H; subst;
    try reflexivity; congruence.
Qed.

(* ===================================================================== *)
(** * Facts about the string built-ins *)
(* ===================================================================== *)

Lemma split_not_empty (sep : ascii) (s : string) : PyStr.split sep s <> [].
Proof.
  destruct s as [|c s]; cbn [PyStr.split]; [discriminate|].
  destruct (Ascii.eqb c sep); [discriminate|].
  destruct (PyStr.split sep s); discriminate.
Qed.

(** [s.split(sep)[-1]] never raises. *)
Lemma last_item_split (sep : ascii) (s : string) (e : exn) :
  PyStr.last_item (PyStr.split sep s) <> Raised e.
Proof.
  unfold PyStr.last_item.
  destruct (rev (PyStr.split sep s)) as [|x l] eqn:E; [|discriminate].
  exfalso. apply (split_not_empty sep s).
  rewrite <- (rev_involutive (PyStr.split sep s)), E. reflexivity.
Qed.

(* ===================================================================== *)
(** * Facts about the scraper *)
(* ===================================================================== *)

(** Symbolic execution of the statements of [build_data]. *)
Ltac exec :=
  cbv beta iota zeta delta
    [row_step try_except row_try row_except row_counts
     bind lift ret set_d get_d after_request
     d_setitem d_getitem data_append get_data set_data sleep requests_get
     scraper_debug scraper_warning scraper_info
     v_d v_data v_rows requests_made slept dict_set dict_get fst snd
     String.eqb Ascii.eqb Bool.eqb value_str] in *.

Ltac stuck_call x :=
  match x with
  | text_of _ => idtac
  | href_of _ => idtac
  | first_item _ => idtac
  | PyStr.last_item _ => idtac
  | PyStr.int _ => idtac
  | value_truediv _ _ => idtac
  | value_agreeance_text _ => idtac
  end.

Ltac exec_step :=
  match goal with
  | |- context [match ?x with Normal _ => _ | Raised _ => _ end] =>
      stuck_call x; let E := fresh "E" in destruct x eqn:E
  | |- context [match ?net ?n ?url with Some _ => _ | None => _ end] =>
      let E := fresh "E" in destruct (net n url) eqn:E
  end.

Ltac run_row := exec; repeat (exec_step; exec).

Ltac no_split_failure :=
  try match goal with
      | H : PyStr.last_item (PyStr.split _ _) = Raised _ |- _ =>
          exfalso; exact (last_item_split _ _ _ H)
      end.

(** Runs a row whose counts are given by a hypothesis on [row_counts]. *)
Ltac run_counted_row H :=
  revert H; run_row;
  intros H; try discriminate; inversion H; subst; clear H;
  no_split_failure.

(** The same execution, with the extractor of the specification run
    alongside. *)
Ltac exec_spec :=
  cbv beta iota zeta delta
    [row_step try_except row_try row_except row_titled
     Spec.extract Spec.row_fields Spec.and_then
     bind lift ret set_d get_d after_request
     d_setitem d_getitem data_append get_data set_data sleep requests_get
     scraper_debug scraper_warning scraper_info
     v_d v_data v_rows requests_made slept dict_set dict_get fst snd
     String.eqb Ascii.eqb Bool.eqb value_str value_truediv
     value_agreeance_text app] in *.

Ltac stuck_spec x :=
  match x with
  | text_of _ => idtac
  | href_of _ => idtac
  | first_item _ => idtac
  | PyStr.last_item _ => idtac
  | PyStr.int _ => idtac
  | int_truediv _ _ => idtac
  end.

Ltac exec_spec_step :=
  match goal with
  | |- context [match ?x with Normal _ => _ | Raised _ => _ end] =>
      stuck_spec x; let E := fresh "E" in destruct x eqn:E
  | |- context [match ?net ?n ?url with Some _ => _ | None => _ end] =>
      let E := fresh "E" in destruct (net n url) eqn:E
  end.

Section ScraperFacts.

Variable net : Net.

(** One turn of the row loop leaves [rows] alone, and either appends
    one complete record and ends normally, or appends nothing; when it
    raises, it raises the handler's [KeyError]. *)
Lemma row_step_effect (row : Row) (s : Env) :
  v_rows (snd (row_step net row s)) = v_rows s /\
  ((fst (row_step net row s) = Normal tt /\
    exists d, v_data (snd (row_step net row s)) = (v_data s ++ [d])%list /\
              complete_record d) \/
   (v_data (snd (row_step net row s)) = v_data s /\
    (fst (row_step net row s) = Normal tt \/
     fst (row_step net row s) = Raised KeyError))).
Proof.
  destruct s as [n t data rows d0].
  run_row.
  all: split; [reflexivity|].
  all: try (right; split; [reflexivity|];
            (left; reflexivity) || (right; reflexivity)).
  left. split; [reflexivity|]. eexists. split; [reflexivity|].
  split; [reflexivity|].
  match goal with
  | H : value_truediv (VInt ?a) (VInt ?b) = Normal _ |- _ =>
      unfold value_truediv in H;
      destruct (int_truediv a b) as [q|] eqn:Hq; inversion H; subst;
      exists a, b, q
  end.
  match goal with
  | H : value_agreeance_text _ = Normal _ |- _ => inversion H; subst
  end.
  repeat split; try reflexivity; exact Hq.
Qed.

(** A property of the store that every turn of a loop keeps holds when
    the loop is over, however it ends. *)
Lemma for_each_invariant {A} (P : Env -> Prop) (body : A -> M unit) :
  (forall x s, P s -> P (snd (body x s))) ->
  forall xs s, P s -> P (snd (for_each xs body s)).
Proof.
  intros Hbody xs. induction xs as [|x xs IH]; intros s Hs; [exact Hs|].
  cbn [for_each]. unfold bind.
  specialize (Hbody x s Hs).
  destruct (body x s) as [[[]|e] s1]; cbn [snd] in *; auto.
Qed.

Lemma row_step_complete (row : Row) (s : Env) :
  all_complete s -> all_complete (snd (row_step net row s)).
Proof.
  unfold all_complete. intros Hs.
  destruct (row_step_effect row s) as [_ [[_ [d [Hd Hc]]]|[Hd _]]];
    rewrite Hd; [|exact Hs].
  apply Forall_app. split; [exact Hs|]. constructor; [exact Hc|constructor].
Qed.

(** The page-level [try] statement does not touch [data]. *)
Lemma page_try_data (page : string) (s : Env) :
  v_data (snd (try_except (page_try net page) (page_except page) s)) = v_data s.
Proof.
  unfold try_except, page_try, page_except, bind, requests_get, set_rows,
    after_request, scraper_debug, scraper_warning, ret.
  destruct (net (requests_made s) page); reflexivity.
Qed.

Lemma page_step_complete (page : string) (s : Env) :
  all_complete s -> all_complete (snd (page_step net page s)).
Proof.
  intros Hs. unfold page_step, bind, scraper_info, ret.
  pose proof (page_try_data page s) as Hd.
  destruct (try_except _ _ s) as [[[]|e] s1]; cbn [snd] in Hd.
  - assert (H1 : all_complete s1) by (unfold all_complete; rewrite Hd; exact Hs).
    unfold get_rows. destruct (v_rows s1) as [rows|]; [|exact H1].
    pose proof (for_each_invariant all_complete (row_step net)
                  row_step_complete rows s1 H1) as H2.
    destruct (for_each rows (row_step net) s1) as [[[]|e] s2];
      cbn [snd] in *; exact H2.
  - unfold all_complete. cbn [snd]. rewrite Hd. exact Hs.
Qed.

(** Whatever the network does, every record of the list [build_data]
    returns is complete. *)
Lemma build_data_complete (pgs : list string) (s s' : Env) (data : list dict) :
  build_data net pgs s = (Normal data, s') -> Forall complete_record data.
Proof.
  unfold build_data, bind, scraper_info, ret, set_data, get_data.
  set (s0 := {| requests_made := requests_made s; slept := slept s;
                v_data := []; v_rows := v_rows s; v_d := v_d s |}).
  assert (H0 : all_complete s0) by constructor.
  pose proof (for_each_invariant all_complete (page_step net)
                page_step_complete pgs s0 H0) as H1.
  destruct (for_each pgs (page_step net) s0) as [[[]|e] s1];
    cbn [snd] in H1; intros H; inversion H; subst. exact H1.
Qed.

(** A row with a zero disagree count: the division raises, the handler
    logs, nothing is appended and no request is made. *)
Lemma row_step_zero_disagree (row : Row) (agree : Z) (s : Env) :
  row_counts row = Some (agree, 0) ->
  fst (row_try net row s) = Raised ZeroDivisionError /\
  fst (row_step net row s) = Normal tt /\
  v_data (snd (row_step net row s)) = v_data s /\
  v_rows (snd (row_step net row s)) = v_rows s /\
  requests_made (snd (row_step net row s)) = requests_made s.
Proof.
  destruct s as [n t data rows d0]. intros Hc. run_counted_row Hc.
  all: match goal with
       | H : value_truediv _ _ = _ |- _ => cbn in H; inversion H; subst
       end.
  all: repeat split; reflexivity.
Qed.

(** A row with counts [a] and [b] whose quotient is [q]: when the turn
    is over, [d] holds [q] as its ratio and the classifier's answer for
    [q] as its label, whatever happened to the second request. *)
Lemma row_step_ratio (row : Row) (a b : Z) (q : float) (s : Env) :
  row_counts row = Some (a, b) ->
  int_truediv a b = Normal q ->
  exists d,
    v_d (snd (row_step net row s)) = Some d /\
    dict_get "agree" d = Some (VInt a) /\
    dict_get "disagree" d = Some (VInt b) /\
    dict_get "agree_ratio" d = Some (VFloat q) /\
    dict_get "agreeance_text" d =
      Some match get_agreeance_text q with
           | Some label => VStr label
           | None => VNone
           end.
Proof.
  destruct s as [n t data rows d0]. intros Hc Hq. run_counted_row Hc.
  all: match goal with
       | H : value_truediv _ _ = _ |- _ =>
           unfold value_truediv in H; rewrite Hq in H; inversion H; subst
       end.
  all: match goal with
       | H : value_agreeance_text _ = _ |- _ =>
           unfold value_agreeance_text in H; inversion H; subst
       end.
  all: eexists; split; [reflexivity|]; repeat split; reflexivity.
Qed.

(** A turn whose [try] body raises appends nothing. *)
Lemma row_step_raise_drops (row : Row) (s : Env) (e : exn) :
  fst (row_try net row s) = Raised e ->
  v_data (snd (row_step net row s)) = v_data s.
Proof.
  destruct s as [n t data rows d0]. run_row.
  all: intros H; try discriminate; reflexivity.
Qed.

(** When the fetch of a page fails, the row loop still runs: on the
    rows [rows] was bound to before, or into an [UnboundLocalError]
    when it was not bound yet. *)
Lemma page_step_failed_fetch (page : string) (s : Env) :
  net (requests_made s) page = None ->
  page_step net page s =
  match v_rows s with
  | Some rows =>
      bind (for_each rows (row_step net)) (fun _ => sleep 10) (after_request s)
  | None => (Raised UnboundLocalError, after_request s)
  end.
Proof.
  intros H.
  unfold page_step, try_except, page_try, page_except, bind at 1 2 3 4 5,
    requests_get, scraper_info, scraper_warning, ret.
  rewrite H. unfold get_rows, after_request. cbn [v_rows].
  destruct (v_rows s); reflexivity.
Qed.

(** A turn of the row loop on a titled row does what the extractor of
    the specification does: it ends normally, appends the record when
    there is one, and uses the same requests. *)
Lemma row_step_extract (row : Row) (s : Env) :
  row_titled row = true ->
  fst (row_step net row s) = Normal tt /\
  v_data (snd (row_step net row s)) =
    (v_data s ++ successes (fst (Spec.extract net (requests_made s) row)))%list /\
  requests_made (snd (row_step net row s)) =
    snd (Spec.extract net (requests_made s) row) /\
  v_rows (snd (row_step net row s)) = v_rows s.
Proof.
  destruct s as [n t data rows d0]. unfold successes.
  exec_spec. repeat (exec_spec_step; exec_spec).
  all: intros H; try discriminate H.
  all: repeat split; try reflexivity.
  all: try (symmetry; apply app_nil_r).
Qed.

(** A turn on a row that lacks its title cell or the link in it ends in
    the handler's [KeyError], with nothing appended. *)
Lemma row_step_untitled (row : Row) (s : Env) :
  row_titled row = false ->
  fst (row_step net row s) = Raised KeyError /\
  v_data (snd (row_step net row s)) = v_data s.
Proof.
  destruct s as [n t data rows d0].
  exec_spec. repeat (exec_spec_step; exec_spec).
  all: intros H; try discriminate H.
  all: split; reflexivity.
Qed.

(** The row loop on titled rows is the page scraper of the
    specification. *)
Lemma rows_loop_scrape (rows : list Row) (s : Env) :
  forallb row_titled rows = true ->
  fst (for_each rows (row_step net) s) = Normal tt /\
  v_data (snd (for_each rows (row_step net) s)) =
    (v_data s ++ fst (Spec.scrape_rows net (requests_made s) rows))%list /\
  requests_made (snd (for_each rows (row_step net) s)) =
    snd (Spec.scrape_rows net (requests_made s) rows) /\
  v_rows (snd (for_each rows (row_step net) s)) = v_rows s.
Proof.
  revert s. induction rows as [|row rows IH]; intros s H.
  - cbn. rewrite app_nil_r. repeat split; reflexivity.
  - cbn [forallb] in H. apply andb_true_iff in H. destruct H as [Hrow Hrows].
    destruct (row_step_extract row s Hrow) as (Ho & Hd & Hn & Hr).
    cbn [for_each Spec.scrape_rows]. unfold bind.
    destruct (row_step net row s) as [o s1]. cbn [fst snd] in Ho, Hd, Hn, Hr.
    subst o.
    destruct (IH s1 Hrows) as (Ho' & Hd' & Hn' & Hr').
    rewrite Hn in Hd', Hn'.
    destruct (Spec.extract net (requests_made s) row) as [o n1].
    cbn [fst snd] in *.
    destruct (Spec.scrape_rows net n1 rows) as [ds n2]. cbn [fst snd] in *.
    split; [exact Ho'|]. split; [|split; [exact Hn' | congruence]].
    rewrite Hd', Hd, <- app_assoc. destruct o; reflexivity.
Qed.

(** When the fetch of a page succeeds, the row loop runs on its rows. *)
Lemma page_step_fetched (page : string) (doc : Doc) (s : Env) :
  net (requests_made s) page = Some doc ->
  page_step net page s =
  bind (for_each (tbody_tr doc) (row_step net)) (fun _ => sleep 10)
       {| requests_made := S (requests_made s); slept := slept s;
          v_data := v_data s; v_rows := Some (tbody_tr doc); v_d := v_d s |}.
Proof.
  intros Hnet.
  cbv beta iota zeta delta
    [page_step try_except page_try page_except bind requests_get
     scraper_info scraper_debug scraper_warning set_rows get_rows ret].
  rewrite Hnet. reflexivity.
Qed.

Lemma page_step_scrape (page : string) (doc : Doc) (s : Env) :
  net (requests_made s) page = Some doc ->
  forallb row_titled (tbody_tr doc) = true ->
  fst (page_step net page s) = Normal tt /\
  v_data (snd (page_step net page s)) =
    (v_data s ++ fst (Spec.scrape net (requests_made s) page))%list /\
  requests_made (snd (page_step net page s)) =
    snd (Spec.scrape net (requests_made s) page).
Proof.
  intros Hnet Hrows. rewrite (page_step_fetched page doc s Hnet).
  unfold Spec.scrape. rewrite Hnet.
  set (s1 := {| requests_made := S (requests_made s); slept := slept s;
                v_data := v_data s; v_rows := Some (tbody_tr doc); v_d := v_d s |}).
  destruct (rows_loop_scrape (tbody_tr doc) s1 Hrows) as (Ho & Hd & Hn & _).
  unfold bind.
  destruct (for_each (tbody_tr doc) (row_step net) s1) as [o s2].
  cbn [fst snd] in *. subst o. unfold sleep. cbn [fst snd v_data requests_made].
  repeat split; assumption.
Qed.

(** The page loop of a healthy run is the pipeline of the
    specification. *)
Lemma pages_loop_run (pgs : list string) (s : Env) :
  healthy net (requests_made s) pgs = true ->
  fst (for_each pgs (page_step net) s) = Normal tt /\
  v_data (snd (for_each pgs (page_step net) s)) =
    (v_data s ++ Spec.run net (requests_made s) pgs)%list.
Proof.
  revert s. induction pgs as [|page pgs IH]; intros s H.
  - cbn. rewrite app_nil_r. split; reflexivity.
  - cbn [healthy] in H.
    destruct (net (requests_made s) page) as [doc|] eqn:Hnet; [|discriminate H].
    apply andb_true_iff in H. destruct H as [Hrows Hrest].
    destruct (page_step_scrape page doc s Hnet Hrows) as (Ho & Hd & Hn).
    cbn [for_each Spec.run]. unfold bind.
    destruct (page_step net page s) as [o s1]. cbn [fst snd] in Ho, Hd, Hn.
    subst o. rewrite <- Hn in Hrest.
    destruct (IH s1 Hrest) as (Ho' & Hd').
    rewrite Hn in Hd'.
    destruct (Spec.scrape net (requests_made s) page) as [ds n1].
    cbn [fst snd] in *.
    split; [exact Ho'|]. rewrite Hd', Hd, <- app_assoc. reflexivity.
Qed.

(** In a run where every page is fetched and every row is titled,
    [build_data] returns what the pipeline of the specification returns:
    the records of the pages in page order, those of a page in row
    order, each once. *)
Lemma build_data_run (pgs : list string) :
  healthy net 0 pgs = true ->
  run_build_data net pgs = Normal (Spec.run net 0 pgs).
Proof.
  intros H. unfold run_build_data, build_data, bind, scraper_info, ret,
    set_data, get_data.
  cbn [requests_made slept v_rows v_d init_env].
  set (s0 := {| requests_made := 0; slept := 0; v_data := [];
                v_rows := None; v_d := None |}).
  destruct (pages_loop_run pgs s0 H) as (Ho & Hd).
  destruct (for_each pgs (page_step net) s0) as [o s1]. cbn [fst snd] in *.
  subst o. cbn [fst]. rewrite Hd. reflexivity.
Qed.

(** Whatever else a row holds, when its disagree counter reads 0 the turn
    appends nothing. *)
Lemma row_step_zero_drops (row : Row) (counter : Tag) (s : Env) :
  disagree_el row = Some counter ->
  PyStr.int (tag_text counter) = Normal 0 ->
  v_data (snd (row_step net row s)) = v_data s.
Proof.
  destruct s as [n t data rows d0]. intros Hel Hint. run_row.
  all: try reflexivity.
  exfalso.
  match goal with
  | H : text_of (disagree_el row) = Normal _ |- _ =>
      rewrite Hel in H; inversion H; subst
  end.
  match goal with
  | H : PyStr.int (tag_text counter) = Normal _ |- _ =>
      rewrite Hint in H; inversion H; subst
  end.
  match goal with
  | H : value_truediv _ _ = Normal _ |- _ => cbn in H; discriminate H
  end.
Qed.

End ScraperFacts.

(* ===================================================================== *)
(** * Facts about the exporter *)
(* ===================================================================== *)

Lemma mem_In (k : string) (l : list string) : mem k l = true <-> In k l.
Proof.
  unfold mem. rewrite existsb_exists. split.
  - intros [x [Hx He]]. apply String.eqb_eq in He. subst. exact Hx.
  - intros H. exists k. split; [exact H | apply String.eqb_refl].
Qed.

Lemma dict_get_keys (k : string) (d : dict) :
  dict_get k d <> None <-> In k (keys d).
Proof.
  induction d as [|[k' v] d IH]; cbn [dict_get keys map fst In].
  - tauto.
  - destruct (String.eqb_spec k k') as [->|Hn].
    + split; [auto | discriminate].
    + rewrite IH. unfold keys. split; [auto | intros [H|H]; congruence].
Qed.









(* ===================================================================== *)
(** * The classifier: claims C1, C8, C10 *)
(* ===================================================================== *)

(** C1.  For every ratio above zero, [get_agreeance_text] returns the
    label that the table of section 4.1 gives when it is read top-down,
    and that table does give one.  The half-open ranges of the table are
    disjoint, so this is the label of whichever row holds the ratio in
    its range.  Each boundary value 0.33, 0.5, 0.67, 1, 1.5, 2, 3 gets
    the label of the bucket that ends at it. *)
Theorem get_agreeance_text_ladder :
  (forall ratio : float,
      fgt ratio f0 = true ->
      get_agreeance_text ratio = first_match ladder_4_1 ratio /\
      (exists label, first_match ladder_4_1 ratio = Some label) /\
      (forall cond label,
          In (cond, label) ladder_4_1 -> cond ratio = true ->
          get_agreeance_text ratio = Some label)) /\
  get_agreeance_text f0_33 = Some "absolutely disagrees" /\
  get_agreeance_text f0_5 = Some "strongly disagrees" /\
  get_agreeance_text f0_67 = Some "disagrees" /\
  get_agreeance_text f1 = Some "neutral" /\
  get_agreeance_text f1_5 = Some "somewhat agrees" /\
  get_agreeance_text f2 = Some "agrees" /\
  get_agreeance_text f3 = Some "strongly agrees".
Proof.
  split; [|repeat split; reflexivity].
  intros ratio Hpos. split; [apply get_agreeance_text_first_match|]. split.
  - rewrite <- get_agreeance_text_first_match.
    pose proof (positive_labelled ratio Hpos) as H.
    destruct (get_agreeance_text ratio) as [label|]; [|congruence].
    exists label. reflexivity.
  - intros cond label. apply ladder_row_label.
Qed.

Lemma get_agreeance_text_ladder_witness :
  fgt f_third f0 = true /\
  get_agreeance_text f_third = first_match ladder_4_1 f_third /\
  get_agreeance_text f_third = Some "strongly disagrees".
Proof.
  split; [reflexivity|]. split.
  - exact (proj1 (proj1 get_agreeance_text_ladder f_third eq_refl)).
  - reflexivity.
Defined.

(** C8.  For every ratio above zero, [get_agreeance_text] returns a label
    of the nine-label vocabulary and never falls through to [None]; it
    is a function of its argument, and two ratios that compare equal get
    the same label. *)
Theorem get_agreeance_text_total (ratio : float) :
  fgt ratio f0 = true ->
  (exists label, get_agreeance_text ratio = Some label /\ In label vocabulary) /\
  get_agreeance_text ratio <> None /\
  (List.length vocabulary = 9%nat /\ NoDup vocabulary) /\
  (forall ratio', ratio' = ratio ->
                  get_agreeance_text ratio' = get_agreeance_text ratio) /\
  (forall ratio', feq ratio ratio' = true ->
                  get_agreeance_text ratio' = get_agreeance_text ratio).
Proof.
  intros Hpos. pose proof (positive_labelled ratio Hpos) as Hsome.
  repeat split.
  - destruct (get_agreeance_text ratio) as [label|] eqn:E; [|congruence].
    exists label. split; [reflexivity|]. apply (label_in_vocabulary ratio), E.
  - exact Hsome.
  - repeat constructor; cbn; intuition discriminate.
  - intros ratio' ->. reflexivity.
  - intros ratio' H. symmetry. apply get_agreeance_text_key, feq_same_key, H.
Qed.

Lemma get_agreeance_text_total_witness :
  fgt f1_5 f0 = true /\ get_agreeance_text f1_5 <> None.
Proof.
  split; [reflexivity|].
  exact (proj1 (proj2 (get_agreeance_text_total f1_5 eq_refl))).
Defined.

(** C10.  For every ratio at or below zero, negative ratios and minus
    infinity included, [get_agreeance_text] returns "absolutely
    disagrees". *)
Theorem get_agreeance_text_non_positive (ratio : float) :
  fle ratio f0 = true ->
  get_agreeance_text ratio = Some "absolutely disagrees".
Proof. apply non_positive_label. Qed.

Lemma get_agreeance_text_non_positive_witness :
  fle (nearest_quotient (-3) 4) f0 = true /\
  get_agreeance_text (nearest_quotient (-3) 4) = Some "absolutely disagrees".
Proof.
  split; [reflexivity|].
  exact (get_agreeance_text_non_positive (nearest_quotient (-3) 4) eq_refl).
Defined.

(* ===================================================================== *)
(** * The scraper: claims C2, C3, C4, C5, C7, C9 *)
(* ===================================================================== *)

(** C2.  The claim is that a page whose fetch fails contributes no rows
    and lets no exception out.  On the code: with the second of the three
    pages down, five good rows on the first and four on the third, the
    rows of the first page are run a second time and [build_data] returns
    fourteen records, where the pipeline of the specification returns
    nine; with the first page down, the row loop reads [rows] before any
    assignment and the run ends in an [UnboundLocalError]. *)
Theorem failed_page_reruns_previous_rows :
  (forall n, net_second_page_down n page_1 = None) /\
  (exists first third,
      run_build_data net_second_page_down [page_0] = Normal first /\
      List.length first = 5%nat /\
      run_build_data net_second_page_down [page_2] = Normal third /\
      List.length third = 4%nat /\
      Spec.run net_second_page_down 0 pages = (first ++ third)%list /\
      List.length (first ++ third)%list = 9%nat /\
      run_build_data net_second_page_down pages
      = Normal (first ++ first ++ third)%list /\
      List.length (first ++ first ++ third)%list = 14%nat) /\
  (forall n, net_first_page_down n page_0 = None) /\
  List.length (Spec.run net_first_page_down 0 pages) = 9%nat /\
  run_build_data net_first_page_down pages = Raised UnboundLocalError.
Proof.
  split; [intros n; reflexivity|]. split.
  - eexists. eexists.
    split; [vm_compute; reflexivity|]. split; [reflexivity|].
    split; [vm_compute; reflexivity|]. split; [reflexivity|].
    split; [vm_compute; reflexivity|]. split; [reflexivity|].
    split; vm_compute; reflexivity.
  - split; [intros n; reflexivity|]. split; vm_compute; reflexivity.
Qed.

(** C3.  The claim is that no failure ends the run with an uncaught
    exception.  On the code: a row that has lost its title cell fails
    before [d['allsides_page']] is set, the row-level handler reads that
    key for its message, and the [KeyError] it raises leaves
    [build_data], where the pipeline of the specification returns the
    record of the good row; and when no page can be fetched the run ends
    in an [UnboundLocalError], where the pipeline of the specification
    returns the empty list. *)
Theorem uncaught_exceptions_leave_build_data :
  source_title (untitled_row "right" "3" "9") = None /\
  Spec.run net_untitled_row 0 [page_0] = [record_A] /\
  run_build_data net_untitled_row [page_0] = Raised KeyError /\
  (forall n url, net_down n url = None) /\
  Spec.run net_down 0 pages = [] /\
  run_build_data net_down pages = Raised UnboundLocalError.
Proof.
  split; [reflexivity|]. split; [vm_compute; reflexivity|].
  split; [vm_compute; reflexivity|].
  split; [intros n url; reflexivity|]. split; vm_compute; reflexivity.
Qed.

(** C4.  The claim is that the result is the records of the pages in page
    order, each appended once.  On the code: the first page contributes
    one record and the second page cannot be fetched, so the pipeline of
    the specification returns that one record; [build_data] returns it
    twice. *)
Theorem failed_page_duplicates_records :
  (forall n, net_one_then_down n page_1 = None) /\
  run_build_data net_one_then_down [page_0] = Normal [record_A] /\
  Spec.run net_one_then_down 0 [page_0; page_1] = [record_A] /\
  run_build_data net_one_then_down [page_0; page_1]
  = Normal [record_A; record_A].
Proof.
  split; [intros n; reflexivity|]. repeat split; vm_compute; reflexivity.
Qed.

(** C5.  For every row whose disagree count is 0, the division of the
    row-level [try] raises [ZeroDivisionError]; the handler catches it,
    the turn ends normally, no record is appended and the second request
    is not made.  Whatever else the row holds, a disagree counter that
    reads 0 means that nothing is appended.  A quotient that [int / int]
    does return is finite: neither an infinity nor a NaN. *)
Theorem zero_disagree_row_dropped (net : Net) (row : Row) (s : Env) :
  (forall agree,
      row_counts row = Some (agree, 0) ->
      fst (row_try net row s) = Raised ZeroDivisionError /\
      fst (row_step net row s) = Normal tt /\
      v_data (snd (row_step net row s)) = v_data s /\
      requests_made (snd (row_step net row s)) = requests_made s) /\
  (forall counter,
      disagree_el row = Some counter ->
      PyStr.int (tag_text counter) = Normal 0 ->
      v_data (snd (row_step net row s)) = v_data s) /\
  (forall a b,
      int_truediv a 0 = Raised ZeroDivisionError /\
      forall q, int_truediv a b = Normal q ->
                is_finite q = true /\ is_inf q = false /\ is_nan q = false).
Proof.
  split; [|split].
  - intros agree Hc.
    destruct (row_step_zero_disagree net row agree s Hc) as (H1 & H2 & H3 & _ & H5).
    repeat split; assumption.
  - intros counter. apply row_step_zero_drops.
  - intros a b. split; [reflexivity|]. intros q H.
    pose proof (int_truediv_finite a b q H) as Hf.
    destruct q; try discriminate Hf; repeat split; reflexivity.
Qed.

Lemma zero_disagree_row_dropped_witness :
  row_counts row_zero_disagree = Some (5, 0) /\
  fst (row_try net_AB row_zero_disagree init_env) = Raised ZeroDivisionError /\
  v_data (snd (row_step net_AB row_zero_disagree init_env)) = [].
Proof.
  split; [reflexivity|].
  pose (H := proj1 (zero_disagree_row_dropped net_AB row_zero_disagree init_env)
               5 eq_refl).
  split; [exact (proj1 H) | exact (proj1 (proj2 (proj2 H)))].
Defined.

(** C7.  Every record of the list [build_data] returns is complete: it
    has the eight keys and no other, its ratio is the quotient of its two
    counts, and its label is the classifier's answer for that ratio.  A
    turn of the row loop whose [try] body raises, at whatever statement,
    appends nothing. *)
Theorem build_data_records_complete (net : Net) :
  (forall (pgs : list string) (data : list dict),
      run_build_data net pgs = Normal data -> Forall complete_record data) /\
  (forall (row : Row) (s : Env) (e : exn),
      fst (row_try net row s) = Raised e ->
      v_data (snd (row_step net row s)) = v_data s).
Proof.
  split.
  - intros pgs data H. unfold run_build_data in H.
    destruct (build_data net pgs init_env) as [o s'] eqn:E. cbn [fst] in H.
    subst o. exact (build_data_complete net pgs init_env s' data E).
  - apply row_step_raise_drops.
Qed.

Lemma build_data_records_complete_witness :
  run_build_data net_AB [page_0] = Normal [record_A; record_B] /\
  Forall complete_record [record_A; record_B].
Proof.
  assert (H : run_build_data net_AB [page_0] = Normal [record_A; record_B])
    by (vm_compute; reflexivity).
  split; [exact H|].
  exact (proj1 (build_data_records_complete net_AB) [page_0] _ H).
Defined.

(** C9, as the code has it.  For a row with agree = 12 and disagree = 4
    the turn leaves [agree_ratio] = 3.0 and [agreeance_text] = "strongly
    agrees" in [d]; for a row with agree = 3 and disagree = 9 it leaves
    [agree_ratio] = 0.3333333333333333 and, that ratio being above 0.33,
    [agreeance_text] = "strongly disagrees". *)
Theorem row_A_row_B_labels (net : Net) (row : Row) (s : Env) :
  (row_counts row = Some (12, 4) ->
   exists d,
     v_d (snd (row_step net row s)) = Some d /\
     dict_get "agree_ratio" d = Some (VFloat f3) /\
     dict_get "agreeance_text" d = Some (VStr "strongly agrees")) /\
  (row_counts row = Some (3, 9) ->
   exists d,
     v_d (snd (row_step net row s)) = Some d /\
     dict_get "agree_ratio" d = Some (VFloat f_third) /\
     dict_get "agreeance_text" d = Some (VStr "strongly disagrees")).
Proof.
  split; intros Hc.
  - destruct (row_step_ratio net row 12 4 f3 s Hc eq_refl)
      as (d & Hd & _ & _ & Hr & Ht).
    exists d. repeat split; assumption.
  - destruct (row_step_ratio net row 3 9 f_third s Hc eq_refl)
      as (d & Hd & _ & _ & Hr & Ht).
    exists d. repeat split; assumption.
Qed.

Lemma row_A_row_B_labels_witness :
  row_counts row_A = Some (12, 4) /\
  row_counts row_B = Some (3, 9) /\
  (exists d,
      v_d (snd (row_step net_AB row_A init_env)) = Some d /\
      dict_get "agree_ratio" d = Some (VFloat f3) /\
      dict_get "agreeance_text" d = Some (VStr "strongly agrees")) /\
  (exists d,
      v_d (snd (row_step net_AB row_B init_env)) = Some d /\
      dict_get "agree_ratio" d = Some (VFloat f_third) /\
      dict_get "agreeance_text" d = Some (VStr "strongly disagrees")).
Proof.
  split; [reflexivity|]. split; [reflexivity|]. split.
  - exact (proj1 (row_A_row_B_labels net_AB row_A init_env) eq_refl).
  - exact (proj2 (row_A_row_B_labels net_AB row_B init_env) eq_refl).
Defined.

(** C9 as stated fails at row B: its counts are 3 and 9, and the label
    the turn leaves in [d] is not "absolutely disagrees". *)
Lemma row_B_not_absolutely_disagrees :
  row_counts row_B = Some (3, 9) /\
  ~ (exists d,
        v_d (snd (row_step net_AB row_B init_env)) = Some d /\
        dict_get "agreeance_text" d = Some (VStr "absolutely disagrees")).
Proof.
  split; [reflexivity|]. intros (d & Hd & Ht).
  vm_compute in Hd. inversion Hd; subst d. vm_compute in Ht. discriminate Ht.
Qed.

(* ===================================================================== *)
(** * The exporter: claim C6 *)
(* ===================================================================== *)




(* ===================================================================== *)
(** * Further facts about the classifier *)
(* ===================================================================== *)

Lemma key_none (r : float) : key r = None <-> is_nan r = true.
Proof. destruct r as [[]|[]| |[] m e]; cbn; split; congruence. Qed.

(** The ladder falls through on a NaN and on nothing else. *)
Lemma none_iff_nan (r : float) :
  get_agreeance_text r = None <-> is_nan r = true.
Proof.
  rewrite <- key_none. unfold get_agreeance_text. float_keys.
  destruct (key r) as [[[k1 k2] k3]|].
  - unfold ltk, lek, eqk, lex3.
    split_compare; cbn; split; intros Hyp; discriminate Hyp.
  - split; reflexivity.
Qed.

(** From the label back to the test that produced it. *)
Ltac label_to_range H :=
  unfold get_agreeance_text in H;
  repeat match type of H with
         | (if ?c then _ else _) = _ => destruct c eqn:?
         end;
  try discriminate H; try assumption; try reflexivity.

Ltac range_to_label r H :=
  match type of H with
  | ?c = true =>
      let f := eval pattern r in c in
      match f with
      | ?g _ => apply (ladder_row_label r g); [cbn; tauto | exact H]
      end
  end.

(** How far down the ladder a ratio stands, by the thresholds it
    exceeds. *)
Lemma rank_thresholds (r : float) :
  (rank r <= 0 <-> flt f3 r = true)%nat /\
  (rank r <= 1 <-> flt f2 r = true)%nat /\
  (rank r <= 2 <-> flt f1_5 r = true)%nat /\
  (rank r <= 3 <-> flt f1 r = true)%nat /\
  (rank r <= 4 <-> fle f1 r = true)%nat /\
  (rank r <= 5 <-> flt f0_67 r = true)%nat /\
  (rank r <= 6 <-> flt f0_5 r = true)%nat /\
  (rank r <= 7 <-> flt f0_33 r = true)%nat /\
  (rank r <= 8 <-> is_nan r = false)%nat.
Proof.
  assert (Hn : is_nan r = false <-> key r <> None).
  { destruct r as [[]|[]| |[] ? ?]; cbn; split; congruence. }
  rewrite Hn. clear Hn.
  unfold rank, get_agreeance_text. float_keys.
  destruct (key r) as [[[k1 k2] k3]|].
  - unfold ltk, lek, eqk, lex3.
    split_compare; cbn; repeat split; intros Hyp;
      try reflexivity; try discriminate Hyp; try lia; try congruence.
  - cbn. repeat split; intros Hyp; try discriminate Hyp; try lia; congruence.
Qed.

Lemma flt_fle_trans (t x y : float) :
  flt t x = true -> fle x y = true -> flt t y = true.
Proof.
  rewrite !flt_key, fle_key.
  destruct (key t) as [[[t1 t2] t3]|], (key x) as [[[a1 a2] a3]|],
    (key y) as [[[b1 b2] b3]|]; try discriminate.
  unfold ltk, lek, lex3. intros H1 H2.
  split_compare; cbn in *; try discriminate; try reflexivity.
Qed.

Lemma fle_fle_trans (t x y : float) :
  fle t x = true -> fle x y = true -> fle t y = true.
Proof.
  rewrite !fle_key.
  destruct (key t) as [[[t1 t2] t3]|], (key x) as [[[a1 a2] a3]|],
    (key y) as [[[b1 b2] b3]|]; try discriminate.
  unfold lek, lex3. intros H1 H2.
  split_compare; cbn in *; try discriminate; try reflexivity.
Qed.

Lemma fle_not_nan (x y : float) :
  fle x y = true -> is_nan x = false /\ is_nan y = false.
Proof.
  destruct x as [[]|[]| |[] ? ?], y as [[]|[]| |[] ? ?]; cbn;
    intros H; split; congruence.
Qed.

Lemma rank_bound (r : float) : (rank r <= 9)%nat.
Proof.
  unfold rank. destruct (get_agreeance_text r) eqn:E; [|cbn; lia].
  apply label_in_vocabulary in E. cbn in E.
  repeat (destruct E as [<-|E]; [cbn; lia|]). destruct E.
Qed.

(** A finite ratio gets a label. *)
Lemma finite_labelled (q : float) :
  is_finite q = true -> exists label, get_agreeance_text q = Some label.
Proof.
  intros H. destruct (get_agreeance_text q) as [l|] eqn:E; [exists l; reflexivity|].
  apply none_iff_nan in E. destruct q; discriminate.
Qed.

(** X1.  Whatever float it is given, [get_agreeance_text] returns a label
    exactly when the ratio is in the range written beside that label in
    the source, and returns [None] exactly when the ratio is a NaN: the
    label of a record tells the range of its ratio. *)
Theorem label_tells_range (r : float) :
  (get_agreeance_text r = Some "absolutely agrees" <-> fgt r f3 = true) /\
  (get_agreeance_text r = Some "strongly agrees" <-> flt f2 r && fle r f3 = true) /\
  (get_agreeance_text r = Some "agrees" <-> flt f1_5 r && fle r f2 = true) /\
  (get_agreeance_text r = Some "somewhat agrees" <-> flt f1 r && fle r f1_5 = true) /\
  (get_agreeance_text r = Some "neutral" <-> feq r f1 = true) /\
  (get_agreeance_text r = Some "somewhat disagrees" <-> flt f0_67 r && flt r f1 = true) /\
  (get_agreeance_text r = Some "disagrees" <-> flt f0_5 r && fle r f0_67 = true) /\
  (get_agreeance_text r = Some "strongly disagrees" <-> flt f0_33 r && fle r f0_5 = true) /\
  (get_agreeance_text r = Some "absolutely disagrees" <-> fle r f0_33 = true) /\
  (get_agreeance_text r = None <-> is_nan r = true).
Proof.
  repeat split; try apply none_iff_nan; intros Hyp;
    solve [ label_to_range Hyp | range_to_label r Hyp ].
Qed.

Lemma label_tells_range_witness :
  get_agreeance_text f_third = Some "strongly disagrees" /\
  flt f0_33 f_third && fle f_third f0_5 = true.
Proof.
  split; [reflexivity|].
  exact (proj1 (proj1 (proj2 (proj2 (proj2 (proj2 (proj2 (proj2 (proj2
           (label_tells_range f_third)))))))) ) eq_refl).
Defined.

(** X2.  The ladder is monotone: when one ratio is at most another, the
    label of the larger one stands at the same place of the ladder or
    higher up (towards "absolutely agrees"). *)
Theorem get_agreeance_text_monotone (r1 r2 : float) :
  fle r1 r2 = true -> (rank r2 <= rank r1)%nat.
Proof.
  intros H.
  destruct (rank_thresholds r1) as (A0 & A1 & A2 & A3 & A4 & A5 & A6 & A7 & A8).
  destruct (rank_thresholds r2) as (B0 & B1 & B2 & B3 & B4 & B5 & B6 & B7 & B8).
  destruct (fle_not_nan _ _ H) as [N1 N2].
  assert (C : forall n : nat, (n <= 8)%nat -> (rank r1 <= n)%nat -> (rank r2 <= n)%nat).
  { intros n Hn Hr.
    do 9 (destruct n as [|n]; [
      first [ apply B0, (flt_fle_trans _ r1), H; apply A0, Hr
            | apply B1, (flt_fle_trans _ r1), H; apply A1, Hr
            | apply B2, (flt_fle_trans _ r1), H; apply A2, Hr
            | apply B3, (flt_fle_trans _ r1), H; apply A3, Hr
            | apply B4, (fle_fle_trans _ r1), H; apply A4, Hr
            | apply B5, (flt_fle_trans _ r1), H; apply A5, Hr
            | apply B6, (flt_fle_trans _ r1), H; apply A6, Hr
            | apply B7, (flt_fle_trans _ r1), H; apply A7, Hr
            | apply B8, N2 ] |]).
    lia. }
  destruct (Nat.le_gt_cases (rank r1) 8) as [Hle|Hgt].
  - apply (C (rank r1) Hle). lia.
  - exfalso. apply A8 in N1. lia.
Qed.

Lemma get_agreeance_text_monotone_witness :
  fle f_third f3 = true /\ rank f3 = 1%nat /\ rank f_third = 7%nat /\
  (rank f3 <= rank f_third)%nat.
Proof.
  split; [reflexivity|]. split; [reflexivity|]. split; [reflexivity|].
  exact (get_agreeance_text_monotone f_third f3 eq_refl).
Defined.

(* ===================================================================== *)
(** * Further facts about true division *)
(* ===================================================================== *)





(** Zero divided by a non-zero integer is a zero, negative when the
    divisor is. *)
Lemma int_truediv_zero (b : Z) :
  b <> 0 -> int_truediv 0 b = Normal (S754_zero (b <? 0)).
Proof.
  intros Hb. unfold int_truediv. destruct (Z.eqb_spec b 0); [congruence|].
  destruct b; [congruence| |]; reflexivity.
Qed.

Lemma int_truediv_divisor (a b : Z) (q : float) :
  int_truediv a b = Normal q -> b <> 0.
Proof.
  unfold int_truediv. destruct (Z.eqb_spec b 0); [discriminate | auto].
Qed.

(** Rounding keeps the sign it is given. *)
Lemma binary_round_aux_sign (s : bool) (m e : Z) (l : location) :
  0 <= m ->
  match binary_round_aux prec emax s m e l with
  | S754_zero s' | S754_infinity s' | S754_finite s' _ _ => s' = s
  | S754_nan => False
  end.
Proof.
  intros H. pose proof (binary_round_aux_not_nan s m e l H) as Hn. revert Hn.
  unfold binary_round_aux.
  destruct (shr_fexp prec emax m e l) as [mrs' e'].
  destruct (shr_fexp prec emax _ e' loc_Exact) as [mrs'' e''].
  destruct (shr_m mrs'') as [|p|p]; [reflexivity| |congruence].
  destruct (e'' <=? emax - prec); reflexivity.
Qed.

Lemma nearest_quotient_sign (a b : Z) :
  0 <= a -> 0 < b -> fle f0 (nearest_quotient a b) = true.
Proof.
  intros Ha Hb. unfold nearest_quotient.
  destruct b as [|pb|pb]; try lia. destruct a as [|pa|pa]; try lia; [reflexivity|].
  cbn [of_int SFdiv xorb]. unfold SFdiv_core_binary.
  match goal with
  | |- context [Z.div_eucl ?x ?y] =>
      pose proof (Z_div_mod x y eq_refl) as Hd;
      assert (Hx : 0 <= x);
      [ | destruct (Z.div_eucl x y) as [q r] ]
  end.
  { match goal with
    | |- 0 <= match ?s with _ => _ end =>
        destruct s; try lia; apply Z.shiftl_nonneg; lia
    end. }
  match goal with
  | |- context [binary_round_aux _ _ ?s ?m ?e ?l] =>
      assert (Hq : 0 <= m) by nia;
      pose proof (binary_round_aux_sign s m e l Hq) as Hs;
      destruct (binary_round_aux prec emax s m e l) as [[]|[]| |[] ? ?];
        try discriminate Hs; try contradiction; reflexivity
  end.
Qed.

(** X5.  For an agree count that is not negative and a positive disagree
    count, the quotient line 143 stores, when the division returns one,
    is a finite float that is not below zero: rounding never turns the
    ratio of two counts negative, infinite or NaN. *)
Theorem counts_ratio_not_negative (a b : Z) (q : float) :
  0 <= a -> 0 < b -> int_truediv a b = Normal q ->
  is_finite q = true /\ fle f0 q = true.
Proof.
  intros Ha Hb H. split; [exact (int_truediv_finite a b q H)|].
  pose proof (nearest_quotient_sign a b Ha Hb) as Hs.
  unfold int_truediv in H. destruct (b =? 0); [discriminate|].
  destruct (is_inf (nearest_quotient a b)); inversion H; subst. exact Hs.
Qed.

Lemma counts_ratio_not_negative_witness :
  int_truediv 3 9 = Normal f_third /\
  is_finite f_third = true /\ fle f0 f_third = true.
Proof.
  split; [reflexivity|].
  refine (counts_ratio_not_negative 3 9 f_third _ _ eq_refl); lia.
Defined.

(* ===================================================================== *)
(** * Further facts about the string built-ins *)
(* ===================================================================== *)

Lemma lstrip_start (s : string) : starts_with_space (PyStr.lstrip s) = false.
Proof.
  induction s as [|c s IH]; [reflexivity|]. cbn [PyStr.lstrip].
  destruct (PyStr.isspace c) eqn:E; [exact IH | cbn; exact E].
Qed.

Lemma rstrip_end (s : string) : ends_with_space (PyStr.rstrip s) = false.
Proof.
  induction s as [|c s IH]; [reflexivity|]. cbn [PyStr.rstrip].
  destruct (PyStr.rstrip s) as [|c' t] eqn:E.
  - destruct (PyStr.isspace c) eqn:Ec; [reflexivity | cbn; exact Ec].
  - exact IH.
Qed.

Lemma rstrip_start (s : string) :
  starts_with_space s = false -> starts_with_space (PyStr.rstrip s) = false.
Proof.
  destruct s as [|c s]; [reflexivity|]. cbn [starts_with_space PyStr.rstrip].
  intros Hc. destruct (PyStr.rstrip s); [rewrite Hc|]; cbn; exact Hc.
Qed.

Lemma lstrip_fixed (s : string) : starts_with_space s = false -> PyStr.lstrip s = s.
Proof.
  destruct s as [|c s]; [reflexivity|]. cbn. intros ->. reflexivity.
Qed.

Lemma rstrip_cons (c : ascii) (s : string) :
  PyStr.rstrip (String c s) =
  match PyStr.rstrip s with
  | EmptyString => if PyStr.isspace c then EmptyString else String c EmptyString
  | t => String c t
  end.
Proof. reflexivity. Qed.

Lemma rstrip_fixed (s : string) : ends_with_space s = false -> PyStr.rstrip s = s.
Proof.
  induction s as [|c s IH]; [reflexivity|].
  destruct s as [|c' t].
  - cbn. intros ->. reflexivity.
  - intros H. rewrite rstrip_cons, (IH H). reflexivity.
Qed.

(** [s.strip()] has no whitespace at either end, and a second [strip]
    leaves it alone. *)
Lemma strip_ends (s : string) :
  starts_with_space (PyStr.strip s) = false /\
  ends_with_space (PyStr.strip s) = false /\
  PyStr.strip (PyStr.strip s) = PyStr.strip s.
Proof.
  unfold PyStr.strip.
  pose proof (rstrip_start _ (lstrip_start s)) as H1.
  pose proof (rstrip_end (PyStr.lstrip s)) as H2.
  repeat split; [exact H1 | exact H2 |].
  rewrite (lstrip_fixed _ H1). apply rstrip_fixed, H2.
Qed.

Lemma split_segments (sep : ascii) (s : string) :
  Forall (fun seg => contains sep seg = false) (PyStr.split sep s).
Proof.
  induction s as [|c s IH]; cbn [PyStr.split].
  - repeat constructor.
  - destruct (Ascii.eqb c sep) eqn:E.
    + constructor; [reflexivity | exact IH].
    + destruct (PyStr.split sep s) as [|seg segs].
      * repeat constructor. cbn. rewrite E. reflexivity.
      * inversion IH; subst. constructor; [|assumption].
        cbn. rewrite E. assumption.
Qed.

Lemma last_item_in (l : list string) (x : string) :
  PyStr.last_item l = Normal x -> In x l.
Proof.
  unfold PyStr.last_item. destruct (rev l) as [|y r] eqn:E; [discriminate|].
  intros H. inversion H; subst. apply in_rev. rewrite E. left. reflexivity.
Qed.

Lemma last_segment_no_sep (sep : ascii) (s x : string) :
  PyStr.last_item (PyStr.split sep s) = Normal x -> contains sep x = false.
Proof.
  intros H. apply last_item_in in H.
  pose proof (split_segments sep s) as F. rewrite Forall_forall in F. apply F, H.
Qed.

Lemma last_item_cons (x y : string) (l : list string) :
  PyStr.last_item (x :: y :: l) = PyStr.last_item (y :: l).
Proof.
  unfold PyStr.last_item. cbn [rev].
  destruct (rev l ++ [y])%list as [|z r] eqn:E.
  - destruct (rev l); discriminate.
  - reflexivity.
Qed.

Lemma split_no_sep (sep : ascii) (s : string) :
  contains sep s = false -> PyStr.split sep s = [s].
Proof.
  induction s as [|c s IH]; [reflexivity|]. cbn [contains PyStr.split].
  intros H. apply orb_false_iff in H. destruct H as [H1 H2].
  rewrite H1, (IH H2). reflexivity.
Qed.

Lemma split_after_sep (sep : ascii) (p tag : string) :
  (2 <= List.length (PyStr.split sep (p ++ String sep tag)))%nat.
Proof.
  induction p as [|c p IH]; cbn [append PyStr.split].
  - rewrite Ascii.eqb_refl. cbn. pose proof (split_not_empty sep tag).
    destruct (PyStr.split sep tag); [congruence | cbn; lia].
  - destruct (Ascii.eqb c sep); [cbn; lia|].
    destruct (PyStr.split sep (p ++ String sep tag)); cbn in *; lia.
Qed.

Lemma last_segment_round_trip (sep : ascii) (prefix tag : string) :
  contains sep tag = false ->
  PyStr.last_item (PyStr.split sep (prefix ++ String sep tag)) = Normal tag.
Proof.
  intros H. induction prefix as [|c p IH]; cbn [append PyStr.split].
  - rewrite Ascii.eqb_refl, (split_no_sep sep tag H). reflexivity.
  - pose proof (split_after_sep sep p tag) as Hlen.
    destruct (PyStr.split sep (p ++ String sep tag)) as [|y [|z l]];
      cbn in Hlen; try lia.
    destruct (Ascii.eqb c sep); rewrite last_item_cons;
      rewrite last_item_cons in IH; try exact IH.
    rewrite last_item_cons. exact IH.
Qed.

(** X15.  The bias tag of line 140, [href.split('/')[-1]]: the expression
    never raises, its value holds no slash, and for a link that ends in a
    slash followed by a tag without slashes the value is that tag. *)
Theorem bias_is_last_segment (href : string) :
  (exists bias, PyStr.last_item (PyStr.split "/" href) = Normal bias /\
                contains "/" bias = false) /\
  (forall prefix tag,
      contains "/" tag = false ->
      href = prefix ++ String "/" tag ->
      PyStr.last_item (PyStr.split "/" href) = Normal tag).
Proof.
  split.
  - destruct (PyStr.last_item (PyStr.split "/" href)) as [bias|e] eqn:E.
    + exists bias. split; [reflexivity|]. exact (last_segment_no_sep _ _ _ E).
    + exfalso. exact (last_item_split _ _ _ E).
  - intros prefix tag Htag ->. apply last_segment_round_trip, Htag.
Qed.

Lemma bias_is_last_segment_witness :
  PyStr.last_item (PyStr.split "/" "/media-bias/left-center") = Normal "left-center".
Proof.
  exact (proj2 (bias_is_last_segment "/media-bias/left-center")
           "/media-bias" "left-center" eq_refl eq_refl).
Defined.

(* ===================================================================== *)
(** * Further facts about the scraper *)
(* ===================================================================== *)

Section MoreScraperFacts.

Variable net : Net.


(** A store property kept by every turn that ends normally holds after a
    loop that ends normally. *)
Lemma for_each_normal_invariant {A} (P : Env -> Prop) (body : A -> M unit) :
  (forall x s, P s -> fst (body x s) = Normal tt -> P (snd (body x s))) ->
  forall xs s, P s -> fst (for_each xs body s) = Normal tt ->
               P (snd (for_each xs body s)).
Proof.
  intros Hbody xs. induction xs as [|x xs IH]; intros s Hs; [intros _; exact Hs|].
  cbn [for_each]. unfold bind.
  specialize (Hbody x s Hs).
  destruct (body x s) as [[[]|e] s1]; cbn [fst snd] in *; [|discriminate].
  apply IH, Hbody. reflexivity.
Qed.

(** The row loop leaves [rows] alone and raises nothing but the handler's
    [KeyError]. *)
Lemma rows_loop_rows (rows : list Row) (s : Env) :
  v_rows (snd (for_each rows (row_step net) s)) = v_rows s.
Proof.
  apply (for_each_invariant (fun s' => v_rows s' = v_rows s) (row_step net));
    [|reflexivity].
  intros row s1 H. rewrite <- H. apply (row_step_effect net row s1).
Qed.

Lemma rows_loop_raise (rows : list Row) (s : Env) (e : exn) :
  fst (for_each rows (row_step net) s) = Raised e -> e = KeyError.
Proof.
  revert s. induction rows as [|row rows IH]; intros s; [discriminate|].
  cbn [for_each]. unfold bind.
  destruct (row_step_effect net row s) as [_ [[Ho _]|[_ [Ho|Ho]]]];
    destruct (row_step net row s) as [o s1]; cbn [fst] in Ho; subst o;
    cbn [fst]; try apply IH.
  intros H. inversion H. reflexivity.
Qed.

(** How a turn of the page loop can end. *)
Lemma page_step_outcome (page : string) (s : Env) :
  match fst (page_step net page s) with
  | Normal _ => v_rows (snd (page_step net page s)) <> None
  | Raised e =>
      e = KeyError \/
      (e = UnboundLocalError /\ v_rows s = None /\
       net (requests_made s) page = None)
  end.
Proof.
  assert (G : forall rows s1,
             v_rows s1 = Some rows ->
             match fst (bind (for_each rows (row_step net)) (fun _ => sleep 10) s1) with
             | Normal _ =>
                 v_rows (snd (bind (for_each rows (row_step net)) (fun _ => sleep 10) s1))
                 <> None
             | Raised e => e = KeyError
             end).
  { intros rows s1 Hr. unfold bind.
    pose proof (rows_loop_rows rows s1) as H1.
    pose proof (rows_loop_raise rows s1) as H2.
    destruct (for_each rows (row_step net) s1) as [[[]|e] s2]; cbn [fst snd] in *.
    - unfold sleep. cbn [fst snd v_rows]. congruence.
    - apply H2. reflexivity. }
  destruct (net (requests_made s) page) as [doc|] eqn:Hnet.
  - rewrite (page_step_fetched net page doc s Hnet).
    match goal with
    | |- context [bind _ _ ?s1] => specialize (G (tbody_tr doc) s1 eq_refl)
    end.
    destruct (fst _); [exact G | left; exact G].
  - rewrite (page_step_failed_fetch net page s Hnet).
    destruct (v_rows s) as [rows|] eqn:Hr.
    + specialize (G rows (after_request s) Hr).
      destruct (fst _); [exact G | left; exact G].
    + cbn [fst]. right. repeat split; reflexivity.
Qed.

Lemma pages_loop_raise (pgs : list string) (s : Env) (e : exn) :
  fst (for_each pgs (page_step net) s) = Raised e ->
  e = KeyError \/
  (e = UnboundLocalError /\ v_rows s = None /\
   exists page rest, pgs = page :: rest /\ net (requests_made s) page = None).
Proof.
  revert s. induction pgs as [|page pgs IH]; intros s; [discriminate|].
  cbn [for_each]. unfold bind.
  pose proof (page_step_outcome page s) as H.
  destruct (page_step net page s) as [[[]|e1] s1]; cbn [fst snd] in *.
  - intros He. destruct (IH s1 He) as [Hk|(_ & Hn & _)]; [left; exact Hk|].
    congruence.
  - intros He. inversion He; subst.
    destruct H as [Hk|(Hu & Hr & Hn)]; [left; exact Hk|].
    right. repeat split; try assumption.
    exists page, pgs. split; [reflexivity|assumption].
Qed.

Lemma build_data_raise (pgs : list string) (e : exn) :
  run_build_data net pgs = Raised e ->
  e = KeyError \/
  (e = UnboundLocalError /\
   exists page rest, pgs = page :: rest /\ net 0%nat page = None).
Proof.
  unfold run_build_data, build_data, bind, scraper_info, ret, set_data, get_data.
  cbn [requests_made slept v_rows v_d init_env].
  set (s0 := {| requests_made := 0; slept := 0; v_data := [];
                v_rows := None; v_d := None |}).
  pose proof (pages_loop_raise pgs s0) as H.
  destruct (for_each pgs (page_step net) s0) as [[[]|e1] s1]; cbn [fst snd] in *;
    [discriminate|].
  intros He. inversion He; subst.
  destruct (H e eq_refl) as [Hk|(Hu & _ & Hp)];
    [left; exact Hk | right; split; assumption].
Qed.

Lemma build_data_first_fetch_fails (page : string) (rest : list string) :
  net 0%nat page = None ->
  run_build_data net (page :: rest) = Raised UnboundLocalError.
Proof.
  intros Hnet.
  set (s0 := {| requests_made := 0; slept := 0; v_data := [];
                v_rows := None; v_d := None |}).
  assert (H : page_step net page s0 = (Raised UnboundLocalError, after_request s0))
    by (rewrite (page_step_failed_fetch net page s0 Hnet); reflexivity).
  unfold run_build_data, build_data, bind, scraper_info, ret, set_data.
  cbn [for_each requests_made slept v_rows v_d init_env]. unfold bind.
  fold s0. rewrite H. reflexivity.
Qed.

(** Sleeping and requests of one turn of the row loop. *)
Lemma row_step_pace (row : Row) (s : Env) :
  (slept (snd (row_step net row s)) + 10 * requests_made s
   = slept s + 10 * requests_made (snd (row_step net row s)))%nat /\
  (requests_made s <= requests_made (snd (row_step net row s))
   <= S (requests_made s))%nat.
Proof.
  destruct s as [n t data rows d0]. run_row. all: lia.
Qed.

Lemma paced_trans (a b c : Env) : paced a b -> paced b c -> paced a c.
Proof. unfold paced. intros [H1 H2] [H3 H4]. split; lia. Qed.

Lemma paced_refl (a : Env) : paced a a.
Proof. split; lia. Qed.

Lemma rows_loop_pace (rows : list Row) (s : Env) :
  paced s (snd (for_each rows (row_step net) s)).
Proof.
  apply (for_each_invariant (paced s) (row_step net)); [|split; lia].
  intros row s1 [H1 H2]. destruct (row_step_pace row s1) as [H3 H4].
  split; lia.
Qed.

Lemma page_step_pace (page : string) (s : Env) :
  fst (page_step net page s) = Normal tt ->
  paced s (snd (page_step net page s)).
Proof.
  assert (G : forall rows s1,
             requests_made s1 = S (requests_made s) -> slept s1 = slept s ->
             fst (bind (for_each rows (row_step net)) (fun _ => sleep 10) s1)
             = Normal tt ->
             paced s (snd (bind (for_each rows (row_step net))
                                (fun _ => sleep 10) s1))).
  { intros rows s1 Hr Hs. unfold bind.
    destruct (rows_loop_pace rows s1) as [H1 H2].
    destruct (for_each rows (row_step net) s1) as [[[]|e] s2]; cbn [fst snd] in *;
      [|discriminate].
    intros _. unfold sleep, paced. cbn [snd slept requests_made]. lia. }
  destruct (net (requests_made s) page) as [doc|] eqn:Hnet.
  - rewrite (page_step_fetched net page doc s Hnet). apply G; reflexivity.
  - rewrite (page_step_failed_fetch net page s Hnet).
    destruct (v_rows s) as [rows|]; [|discriminate]. apply G; reflexivity.
Qed.

Lemma build_data_pace (pgs : list string) (s s' : Env) (data : list dict) :
  build_data net pgs s = (Normal data, s') -> paced s s'.
Proof.
  unfold build_data, bind, scraper_info, ret, set_data, get_data.
  set (s0 := {| requests_made := requests_made s; slept := slept s;
                v_data := []; v_rows := v_rows s; v_d := v_d s |}).
  assert (H : fst (for_each pgs (page_step net) s0) = Normal tt ->
              paced s0 (snd (for_each pgs (page_step net) s0))).
  { apply for_each_normal_invariant; [|apply paced_refl].
    intros page s1 Hp Hn.
    exact (paced_trans _ _ _ Hp (page_step_pace page s1 Hn)). }
  destruct (for_each pgs (page_step net) s0) as [[[]|e] s1]; cbn [fst snd] in *;
    intros E; inversion E; subst.
  specialize (H eq_refl). exact H.
Qed.

(** What a turn of the row loop appends is well formed. *)
Lemma row_step_well_formed (row : Row) (s : Env) :
  v_data (snd (row_step net row s)) = v_data s \/
  exists d, v_data (snd (row_step net row s)) = (v_data s ++ [d])%list /\
            well_formed_record d.
Proof.
  destruct s as [n t data rows d0].
  run_row.
  all: try (left; reflexivity).
  right. eexists. split; [reflexivity|].
  match goal with
  | H : value_truediv (VInt ?a) (VInt ?b) = Normal _ |- _ =>
      unfold value_truediv in H;
      destruct (int_truediv a b) as [q|] eqn:Hq; inversion H; subst
  end.
  match goal with
  | H : value_agreeance_text _ = Normal _ |- _ =>
      unfold value_agreeance_text in H; inversion H; subst
  end.
  pose proof (int_truediv_finite _ _ _ Hq) as Hfin.
  destruct (finite_labelled q Hfin) as [label Hl].
  rewrite Hl.
  do 8 eexists. split; [reflexivity|].
  split; [apply strip_ends|].
  split; [eapply last_segment_no_sep; eassumption|].
  split; [exact (int_truediv_divisor _ _ _ Hq)|].
  split; [exact Hq|]. split; [exact Hfin|]. split; [exact Hl|].
  exact (label_in_vocabulary _ _ Hl).
Qed.

(** A property of the records that every turn of the row loop keeps holds
    of the records of the store after a turn of the page loop. *)
Lemma page_step_records (P : dict -> Prop) :
  (forall row s, Forall P (v_data s) ->
                 Forall P (v_data (snd (row_step net row s)))) ->
  forall page s, Forall P (v_data s) ->
                 Forall P (v_data (snd (page_step net page s))).
Proof.
  intros Hrow page s Hs.
  assert (G : forall rows s1, Forall P (v_data s1) ->
             Forall P (v_data (snd (bind (for_each rows (row_step net))
                                         (fun _ => sleep 10) s1)))).
  { intros rows s1 H1. unfold bind.
    pose proof (for_each_invariant (fun x => Forall P (v_data x))
                  (row_step net) Hrow rows s1 H1) as H2.
    destruct (for_each rows (row_step net) s1) as [[[]|e] s2]; cbn [fst snd] in *;
      exact H2. }
  destruct (net (requests_made s) page) as [doc|] eqn:Hnet.
  - rewrite (page_step_fetched net page doc s Hnet). apply G. exact Hs.
  - rewrite (page_step_failed_fetch net page s Hnet).
    destruct (v_rows s); [apply G|]; exact Hs.
Qed.

Lemma build_data_well_formed (pgs : list string) (data : list dict) :
  run_build_data net pgs = Normal data -> Forall well_formed_record data.
Proof.
  assert (Hrow : forall row s, Forall well_formed_record (v_data s) ->
                   Forall well_formed_record (v_data (snd (row_step net row s)))).
  { intros row s Hs.
    destruct (row_step_well_formed row s) as [Hd|(d & Hd & Ht)]; rewrite Hd;
      [exact Hs|].
    apply Forall_app. split; [exact Hs|]. constructor; [exact Ht|constructor]. }
  unfold run_build_data, build_data, bind, scraper_info, ret, set_data, get_data.
  cbn [requests_made slept v_rows v_d init_env].
  set (s0 := {| requests_made := 0; slept := 0; v_data := [];
                v_rows := None; v_d := None |}).
  assert (H0 : Forall well_formed_record (v_data s0)) by constructor.
  pose proof (for_each_invariant (fun x => Forall well_formed_record (v_data x))
                (page_step net) (page_step_records _ Hrow) pgs s0 H0) as H1.
  destruct (for_each pgs (page_step net) s0) as [[[]|e] s1]; cbn [fst snd] in *;
    intros H; inversion H; subst. exact H1.
Qed.

(** A turn of the page loop keeps the records it finds, in place, and
    appends complete records after them. *)
Lemma page_step_appends (page : string) (s : Env) :
  exists suffix,
    v_data (snd (page_step net page s)) = (v_data s ++ suffix)%list /\
    Forall complete_record suffix.
Proof.
  set (P := fun s' : Env =>
              exists suffix, v_data s' = (v_data s ++ suffix)%list /\
                             Forall complete_record suffix).
  assert (Prow : forall rows s1, P s1 ->
                   P (snd (for_each rows (row_step net) s1))).
  { intros rows s1 H1.
    apply (for_each_invariant P (row_step net)); [|exact H1].
    intros row s2 (suf & Hs & Hc).
    destruct (row_step_effect net row s2) as [_ [[_ [d [Hd Hcd]]]|[Hd _]]].
    - exists (suf ++ [d])%list. rewrite Hd, Hs, app_assoc. split; [reflexivity|].
      apply Forall_app. split; [exact Hc|]. constructor; [exact Hcd|constructor].
    - exists suf. rewrite Hd. split; assumption. }
  assert (G : forall rows s1, v_data s1 = v_data s ->
             P (snd (bind (for_each rows (row_step net)) (fun _ => sleep 10) s1))).
  { intros rows s1 Hd. unfold bind.
    assert (H0 : P s1).
    { exists []. rewrite app_nil_r. split; [exact Hd|constructor]. }
    specialize (Prow rows s1 H0).
    destruct (for_each rows (row_step net) s1) as [[[]|e] s2]; cbn [fst snd] in *;
      exact Prow. }
  destruct (net (requests_made s) page) as [doc|] eqn:Hnet.
  - rewrite (page_step_fetched net page doc s Hnet). apply G. reflexivity.
  - rewrite (page_step_failed_fetch net page s Hnet).
    destruct (v_rows s) as [rows|]; [apply G; reflexivity|].
    exists []. rewrite app_nil_r. split; [reflexivity|constructor].
Qed.

End MoreScraperFacts.

(* ===================================================================== *)
(** * Further properties of the scraper *)
(* ===================================================================== *)



(** X4.  A row with an agree count of 0 and a disagree count other than 0
    gets a zero ratio and the label "absolutely disagrees". *)
Theorem zero_agree_absolutely_disagrees
  (net : Net) (row : Row) (b : Z) (s : Env) :
  b <> 0 ->
  row_counts row = Some (0, b) ->
  exists d,
    v_d (snd (row_step net row s)) = Some d /\
    dict_get "agree_ratio" d = Some (VFloat (S754_zero (b <? 0))) /\
    dict_get "agreeance_text" d = Some (VStr "absolutely disagrees").
Proof.
  intros Hb Hc.
  destruct (row_step_ratio net row 0 b _ s Hc (int_truediv_zero b Hb))
    as (d & Hd & _ & _ & Hr & Ht).
  exists d. split; [exact Hd|]. split; [exact Hr | exact Ht].
Qed.

Lemma zero_agree_absolutely_disagrees_witness :
  row_counts row_no_agree = Some (0, 7) /\
  exists d,
    v_d (snd (row_step net_AB row_no_agree init_env)) = Some d /\
    dict_get "agree_ratio" d = Some (VFloat (S754_zero false)) /\
    dict_get "agreeance_text" d = Some (VStr "absolutely disagrees").
Proof.
  split; [reflexivity|].
  refine (zero_agree_absolutely_disagrees net_AB row_no_agree 7 init_env _ eq_refl).
  lia.
Defined.

(** X6.  The only exceptions that leave [build_data] are the [KeyError]
    of the row-level handler and the [UnboundLocalError] of the row loop;
    and the run ends in [UnboundLocalError] exactly when the request for
    the first page fails. *)
Theorem build_data_escaping_exceptions (net : Net) (pgs : list string) :
  (forall e, run_build_data net pgs = Raised e ->
             e = KeyError \/ e = UnboundLocalError) /\
  (run_build_data net pgs = Raised UnboundLocalError <->
   exists page rest, pgs = page :: rest /\ net 0%nat page = None).
Proof.
  split.
  - intros e H. destruct (build_data_raise net pgs e H) as [Hk|[Hu _]];
      [left; exact Hk | right; exact Hu].
  - split.
    + intros H. destruct (build_data_raise net pgs _ H) as [Hk|[_ Hp]];
        [discriminate Hk | exact Hp].
    + intros (page & rest & -> & Hnet).
      apply build_data_first_fetch_fails, Hnet.
Qed.

Lemma build_data_escaping_exceptions_witness :
  run_build_data net_untitled_row [page_0] = Raised KeyError /\
  (KeyError = KeyError \/ KeyError = UnboundLocalError) /\
  run_build_data net_down pages = Raised UnboundLocalError.
Proof.
  assert (H : run_build_data net_untitled_row [page_0] = Raised KeyError)
    by (vm_compute; reflexivity).
  split; [exact H|]. split.
  - exact (proj1 (build_data_escaping_exceptions net_untitled_row [page_0]) _ H).
  - apply (proj2 (build_data_escaping_exceptions net_down pages)).
    exists page_0, [page_1; page_2]. split; reflexivity.
Defined.

(** X7.  When the request for a page fails, the turn of the page loop goes
    on into the row loop with the rows of the page fetched before: if
    those rows are titled the turn ends normally and appends their
    records once more; if no page was fetched before, it ends in
    [UnboundLocalError]. *)
Theorem failed_fetch_runs_row_loop_again (net : Net) (page : string) (s : Env) :
  net (requests_made s) page = None ->
  (v_rows s = None ->
   page_step net page s = (Raised UnboundLocalError, after_request s)) /\
  (forall rows,
      v_rows s = Some rows ->
      forallb row_titled rows = true ->
      fst (page_step net page s) = Normal tt /\
      v_data (snd (page_step net page s)) =
      (v_data s ++ fst (Spec.scrape_rows net (S (requests_made s)) rows))%list).
Proof.
  intros Hnet. rewrite (page_step_failed_fetch net page s Hnet). split.
  - intros ->. reflexivity.
  - intros rows -> Ht.
    destruct (rows_loop_scrape net rows (after_request s) Ht) as (Ho & Hd & _).
    unfold bind.
    destruct (for_each rows (row_step net) (after_request s)) as [o s2].
    cbn [fst snd] in *. subst o. cbn [fst snd sleep v_data].
    split; [reflexivity | exact Hd].
Qed.

Lemma failed_fetch_runs_row_loop_again_witness :
  net_one_then_down 1%nat page_1 = None /\
  v_data (snd (page_step net_one_then_down page_1
                 {| requests_made := 1; slept := 0; v_data := [record_A];
                    v_rows := Some [row_A]; v_d := None |}))
  = [record_A; record_A].
Proof.
  split; [reflexivity|].
  pose (s := {| requests_made := 1; slept := 0; v_data := [record_A];
                v_rows := Some [row_A]; v_d := None |}).
  exact (proj2 (proj2 (failed_fetch_runs_row_loop_again net_one_then_down page_1 s
                         eq_refl) [row_A] eq_refl eq_refl)).
Defined.

(** X8.  A turn of the row loop ends normally exactly when the row has
    its title cell and the link in it, whatever else fails in the turn
    (a missing bias link or counter, a counter that is not a number, a
    zero disagree count, a failed request for the outlet's page, an
    outlet page without link); otherwise it ends in the handler's
    [KeyError]. *)
Theorem row_turn_raises_iff_untitled (net : Net) (row : Row) (s : Env) :
  (fst (row_step net row s) = Normal tt <-> row_titled row = true) /\
  (fst (row_step net row s) = Raised KeyError <-> row_titled row = false).
Proof.
  destruct (row_titled row) eqn:E.
  - pose proof (proj1 (row_step_extract net row s E)) as H. rewrite H.
    split; split; intros H1; try reflexivity; discriminate H1.
  - pose proof (proj1 (row_step_untitled net row s E)) as H. rewrite H.
    split; split; intros H1; try reflexivity; discriminate H1.
Qed.

Lemma row_turn_raises_iff_untitled_witness :
  row_titled row_A = true /\
  fst (row_step net_down row_A init_env) = Normal tt /\
  row_titled (untitled_row "right" "3" "9") = false /\
  fst (row_step net_AB (untitled_row "right" "3" "9") init_env) = Raised KeyError.
Proof.
  split; [reflexivity|]. split.
  - exact (proj2 (proj1 (row_turn_raises_iff_untitled net_down row_A init_env))
             eq_refl).
  - split; [reflexivity|].
    exact (proj2 (proj2 (row_turn_raises_iff_untitled net_AB
                           (untitled_row "right" "3" "9") init_env)) eq_refl).
Defined.

(** X9.  In a run where every page is fetched and every row has its title
    cell and link, [build_data] returns normally, and what it returns is
    the records of the pages in page order, those of a page in row order,
    each row that extracts contributing its record once and each row
    that fails contributing nothing. *)
Theorem healthy_run_is_pipeline (net : Net) (pgs : list string) :
  healthy net 0 pgs = true ->
  run_build_data net pgs = Normal (Spec.run net 0 pgs).
Proof. apply build_data_run. Qed.

Lemma healthy_run_is_pipeline_witness :
  healthy net_AB 0 [page_0] = true /\
  Spec.run net_AB 0 [page_0] = [record_A; record_B] /\
  run_build_data net_AB [page_0] = Normal (Spec.run net_AB 0 [page_0]).
Proof.
  split; [reflexivity|]. split; [vm_compute; reflexivity|].
  exact (healthy_run_is_pipeline net_AB [page_0] eq_refl).
Defined.

(** X10.  A run of [build_data] that returns has slept ten seconds for
    each request it made, to a table page or to an outlet page; and a
    turn of the row loop makes one request at most. *)
Theorem build_data_sleeps_per_request (net : Net) (pgs : list string) :
  (forall data s',
      build_data net pgs init_env = (Normal data, s') ->
      slept s' = (10 * requests_made s')%nat) /\
  (forall row s,
      (requests_made (snd (row_step net row s)) <= S (requests_made s))%nat).
Proof.
  split.
  - intros data s' H. destruct (build_data_pace net pgs init_env s' data H) as [H1 _].
    cbn [slept requests_made init_env] in H1. lia.
  - intros row s. apply (row_step_pace net row s).
Qed.

Lemma build_data_sleeps_per_request_witness :
  exists data s',
    build_data net_AB [page_0] init_env = (Normal data, s') /\
    requests_made s' = 3%nat /\ slept s' = 30%nat.
Proof.
  eexists. eexists.
  assert (H : build_data net_AB [page_0] init_env
              = (Normal [record_A; record_B],
                 {| requests_made := 3; slept := 30;
                    v_data := [record_A; record_B];
                    v_rows := Some [row_A; row_B]; v_d := Some record_B |}))
    by (vm_compute; reflexivity).
  split; [exact H|]. split; [reflexivity|].
  exact (proj1 (build_data_sleeps_per_request net_AB [page_0]) _ _ H).
Defined.

(** X11.  A turn of the page loop, however it ends, keeps the records
    collected so far, in place, and only appends complete records after
    them: nothing is removed, reordered or overwritten. *)
Theorem page_turn_appends_only (net : Net) (page : string) (s : Env) :
  exists suffix,
    v_data (snd (page_step net page s)) = (v_data s ++ suffix)%list /\
    Forall complete_record suffix /\
    (List.length (v_data s) <= List.length (v_data (snd (page_step net page s))))%nat.
Proof.
  destruct (page_step_appends net page s) as (suffix & Hd & Hc).
  exists suffix. repeat split; try assumption.
  rewrite Hd, length_app. lia.
Qed.

(** X12.  Every record of the list [build_data] returns has its eight
    fields with these values: a name without whitespace at either end,
    an [allsides_page] that starts with the address of the source site,
    a bias tag without slash, two integer counts of which the second is
    not zero, a finite float ratio that is their quotient, a label of
    the nine-label vocabulary (never [None]) and a [news_page] string. *)
Theorem build_data_records_well_formed
  (net : Net) (pgs : list string) (data : list dict) :
  run_build_data net pgs = Normal data -> Forall well_formed_record data.
Proof. apply build_data_well_formed. Qed.

Lemma build_data_records_well_formed_witness :
  run_build_data net_AB [page_0] = Normal [record_A; record_B] /\
  Forall well_formed_record [record_A; record_B].
Proof.
  assert (H : run_build_data net_AB [page_0] = Normal [record_A; record_B])
    by (vm_compute; reflexivity).
  split; [exact H|].
  exact (build_data_records_well_formed net_AB [page_0] _ H).
Defined.

(* ===================================================================== *)
(** * Further properties of the exporter *)
(* ===================================================================== *)

Lemma add_keys_origin (ks seen : list string) (k : string) :
  In k (add_keys ks seen) -> In k seen \/ In k ks.
Proof.
  revert seen. induction ks as [|k0 ks IH]; intros seen H; cbn [add_keys] in H.
  - left. exact H.
  - destruct (mem k0 seen).
    + destruct (IH _ H) as [H1|H1]; [left; exact H1 | right; right; exact H1].
    + destruct (IH _ H) as [H1|H1]; [|right; right; exact H1].
      apply in_app_or in H1. destruct H1 as [H1|[H1|[]]];
        [left; exact H1 | right; left; exact H1].
Qed.

Lemma fold_keys_origin (records : list dict) (seen : list string) (k : string) :
  In k (fold_left (fun seen r => add_keys (keys r) seen) records seen) ->
  In k seen \/ exists r, In r records /\ In k (keys r).
Proof.
  revert seen. induction records as [|r records IH]; intros seen H;
    cbn [fold_left] in H.
  - left. exact H.
  - destruct (IH _ H) as [H1|(r' & Hr & Hk)].
    + destruct (add_keys_origin _ _ _ H1) as [H2|H2]; [left; exact H2|].
      right. exists r. split; [left; reflexivity | exact H2].
    + right. exists r'. split; [right; exact Hr | exact Hk].
Qed.

(** A column of the frame read is a key of some record. *)
Lemma all_keys_origin (records : list dict) (k : string) :
  In k (all_keys records) -> exists r, In r records /\ In k (keys r).
Proof.
  intros H. destruct (fold_keys_origin records [] k H) as [[]|H1]. exact H1.
Qed.



(** X14.  When one of the eight selected fields is a key of no record of
    the file, the column selection of line 205 raises, and
    [build_dataframe] returns the empty frame: every record is left out
    of the table, also their other fields. *)
Theorem build_dataframe_missing_field (records : list dict) (c : string) :
  mem c selected_fields = true ->
  forallb (fun r => negb (has_field r c)) records = true ->
  build_dataframe (Records records) = empty_frame.
Proof.
  intros Hc Hnone. apply mem_In in Hc. rewrite forallb_forall in Hnone.
  unfold build_dataframe, read_json, select_columns. cbn [df_columns].
  assert (Hall : forallb (fun c => mem c (all_keys records)) selected_fields = false).
  { apply not_true_is_false. intros Hall. rewrite forallb_forall in Hall.
    specialize (Hall c Hc). apply mem_In in Hall.
    destruct (all_keys_origin records c Hall) as (r & Hr & Hk).
    specialize (Hnone r Hr). apply negb_true_iff in Hnone.
    unfold has_field in Hnone. apply dict_get_keys in Hk.
    destruct (dict_get c r); [discriminate | congruence]. }
  rewrite Hall. reflexivity.
Qed.

Lemma build_dataframe_missing_field_witness :
  build_dataframe (Records [record_without_news; record_without_news])
  = empty_frame.
Proof.
  exact (build_dataframe_missing_field
           [record_without_news; record_without_news] "news_page"
           eq_refl eq_refl).
Defined.
